(** * PySolve password intelligence: a shallow embedding of [Aditya.py]

    The development follows the class [PasswordIntelligence]:
    the similarity matcher ([check_common_passwords]), the pattern library
    ([detect_patterns]), the history ledger ([add_to_history],
    [check_password_reuse]), the scoring engine ([score_password],
    [is_valid_password]) and [generate_memorable_password].

    Modelling conventions.
    - A Python [str] is the Rocq [string] of its UTF-8 bytes.  On an ASCII
      string ([PyStr.isascii]) a byte is a character and the model follows
      the code character by character.  Bytes above 127 are classified as
      caseless and not digits ([islower] is [a-z], [isupper] is [A-Z],
      [isdigit] is [0-9]) and [String.length] counts them one by one, while
      [PyStr.len] counts code points.  A [str] that holds a lone surrogate
      has no UTF-8 encoding: [encode()] raises on it, and no string of the
      model stands for it.  A theorem whose content depends on the class or
      on the number of the characters is stated for ASCII strings, or over
      any alphabet.
    - Python floats are exact rationals ([Q]); [math.log] and [math.log2]
      are fields of the runtime, so every theorem holds whatever values they
      return. The two comparisons of a quotient of counts with 0.1 and 0.5
      come out as in floating point for every length below 2^50.
    - The texts of [TRANSLATIONS] are kept as their UTF-8 bytes.
    - An exception is a value of [exn]; a method that may raise returns a
      [result].
    - [self.password_history] is threaded explicitly; [datetime.now()] and
      the draws of [random] are inputs of the call that reads them.
    - [hashlib.sha256] is implemented in module [Sha256]. *)

From Stdlib Require Import ZArith NArith QArith Lqa String Ascii List Lia DecimalString.
From stdpp Require Import gmap strings.
Import ListNotations.

Local Open Scope string_scope.

(** ** Python string operations *)

Module PyStr.

Definition chars (s : string) : list ascii := list_ascii_of_string s.
Definition of_chars (l : list ascii) : string := string_of_list_ascii l.

Definition code (c : ascii) : nat := nat_of_ascii c.

(** [c.islower()], [c.isupper()], [c.isdigit()] on ASCII. *)
Definition islower (c : ascii) : bool := (97 <=? code c)%nat && (code c <=? 122)%nat.
Definition isupper (c : ascii) : bool := (65 <=? code c)%nat && (code c <=? 90)%nat.
Definition isdigit (c : ascii) : bool := (48 <=? code c)%nat && (code c <=? 57)%nat.

Definition lower_char (c : ascii) : ascii :=
  if isupper c then ascii_of_nat (code c + 32) else c.
Definition upper_char (c : ascii) : ascii :=
  if islower c then ascii_of_nat (code c - 32) else c.

(** [s.lower()] *)
Fixpoint lower (s : string) : string :=
  match s with
  | EmptyString => EmptyString
  | String c s' => String (lower_char c) (lower s')
  end.

(** [c in s] for a character [c] *)
Fixpoint mem (c : ascii) (s : string) : bool :=
  match s with
  | EmptyString => false
  | String d s' => if Ascii.eqb c d then true else mem c s'
  end.

(** [s.startswith(p)] *)
Fixpoint startswith (p s : string) : bool :=
  match p, s with
  | EmptyString, _ => true
  | String _ _, EmptyString => false
  | String a p', String b s' => Ascii.eqb a b && startswith p' s'
  end.

(** [sub in s] for strings *)
Fixpoint contains (sub s : string) : bool :=
  startswith sub s ||
  match s with
  | EmptyString => false
  | String _ s' => contains sub s'
  end.

(** [s.count(c)] for a one-character [c] *)
Fixpoint count (c : ascii) (s : string) : nat :=
  match s with
  | EmptyString => 0
  | String d s' => (if Ascii.eqb c d then 1 else 0) + count c s'
  end.

(** [s[::-1]] *)
Definition rev (s : string) : string := of_chars (List.rev (chars s)).

(** [s[:n]] *)
Definition take (n : nat) (s : string) : string := String.substring 0 n s.

(** [s * n] *)
Fixpoint repeat (s : string) (n : nat) : string :=
  match n with
  | O => EmptyString
  | S n' => s ++ repeat s n'
  end.

(** [s.replace(a, b)] for one-character [a] and [b] *)
Fixpoint replace (a b : ascii) (s : string) : string :=
  match s with
  | EmptyString => EmptyString
  | String c s' => String (if Ascii.eqb c a then b else c) (replace a b s')
  end.

(** [any(p(c) for c in s)] *)
Fixpoint any (p : ascii -> bool) (s : string) : bool :=
  match s with
  | EmptyString => false
  | String c s' => p c || any p s'
  end.

(** [sum(1 for c in s if p(c))] *)
Fixpoint count_if (p : ascii -> bool) (s : string) : nat :=
  match s with
  | EmptyString => 0
  | String c s' => (if p c then 1 else 0) + count_if p s'
  end.

(** The characters of [s] that satisfy [p], in order:
    [re.sub('[^...]', '', s)] for the class [p]. *)
Fixpoint filter (p : ascii -> bool) (s : string) : string :=
  match s with
  | EmptyString => EmptyString
  | String c s' => if p c then String c (filter p s') else filter p s'
  end.

(** [re.sub('^[...]*', '', s)]: drop the longest prefix inside the class. *)
Fixpoint lstrip (p : ascii -> bool) (s : string) : string :=
  match s with
  | EmptyString => EmptyString
  | String c s' => if p c then lstrip p s' else s
  end.

(** Drop the longest suffix inside the class. *)
Definition rstrip (p : ascii -> bool) (s : string) : string :=
  rev (lstrip p (rev s)).

(** [re.sub('[...]*$', '', s)]: [$] matches at the end and also before a
    newline that ends the string, so the run that is dropped ends the string
    or stands before its final newline. *)
Definition rstrip_dollar (p : ascii -> bool) (s : string) : string :=
  match rev s with
  | String "010" before => rstrip p (rev before) ++ String "010" ""
  | _ => rstrip p s
  end.

(** [str(n)] for a natural number *)
Definition of_nat (n : nat) : string := NilEmpty.string_of_uint (Nat.to_uint n).

(** [str(z)] for an integer *)
Definition of_Z (z : Z) : string := NilEmpty.string_of_int (Z.to_int z).

(** [s.title()]: a cased character is upper-cased when the previous
    character is not cased, lower-cased otherwise. *)
Fixpoint title_from (prev_cased : bool) (s : string) : string :=
  match s with
  | EmptyString => EmptyString
  | String c s' =>
      if islower c || isupper c
      then String (if prev_cased then lower_char c else upper_char c) (title_from true s')
      else String c (title_from false s')
  end.
Definition title (s : string) : string := title_from false s.

(** The distinct characters of [s], each once, in order of first occurrence:
    the keys of [Counter(s)]; [set(s)] holds the same characters (Python
    leaves the iteration order of a set open). *)
Fixpoint distinct_from (seen : list ascii) (s : string) : list ascii :=
  match s with
  | EmptyString => []
  | String c s' =>
      if existsb (Ascii.eqb c) seen then distinct_from seen s'
      else c :: distinct_from (c :: seen) s'
  end.
Definition distinct (s : string) : list ascii := distinct_from [] s.

(** [s.isascii()] *)
Definition isascii (s : string) : bool := negb (any (fun c => (128 <=? code c)%nat) s).

(** [len(s)], the number of code points of the [str] that the bytes encode:
    every byte starts one, the continuation bytes [10xxxxxx] apart. *)
Definition is_continuation (c : ascii) : bool :=
  (128 <=? code c)%nat && (code c <? 192)%nat.
Definition len (s : string) : nat := count_if (fun c => negb (is_continuation c)) s.

End PyStr.

(** ** SHA-256 ([hashlib.sha256(...).hexdigest()]) *)

Module Sha256.
Local Open Scope N_scope.

Definition w32 (x : N) : N := N.land x 0xffffffff.
Definition add32 (a b : N) : N := w32 (a + b).
Definition rotr (n x : N) : N := N.lor (N.shiftr x n) (w32 (N.shiftl x (32 - n))).
Definition not32 (x : N) : N := N.lxor x 0xffffffff.

Definition Ch (x y z : N) : N := N.lxor (N.land x y) (N.land (not32 x) z).
Definition Maj (x y z : N) : N :=
  N.lxor (N.lxor (N.land x y) (N.land x z)) (N.land y z).
Definition Sigma0 (x : N) : N := N.lxor (N.lxor (rotr 2 x) (rotr 13 x)) (rotr 22 x).
Definition Sigma1 (x : N) : N := N.lxor (N.lxor (rotr 6 x) (rotr 11 x)) (rotr 25 x).
Definition sigma0 (x : N) : N := N.lxor (N.lxor (rotr 7 x) (rotr 18 x)) (N.shiftr x 3).
Definition sigma1 (x : N) : N := N.lxor (N.lxor (rotr 17 x) (rotr 19 x)) (N.shiftr x 10).

(** The round constants are the first 32 bits of the fractional parts of
    the cube roots of the first 64 primes, the initial state those of the
    square roots of the first 8. *)
Definition is_prime (n : N) : bool :=
  (2 <=? n) && forallb (fun d => negb (n mod N.of_nat d =? 0)) (seq 2 (N.to_nat (N.sqrt n) - 1)).

Definition primes : list N :=
  Eval vm_compute in List.filter is_prime (List.map N.of_nat (seq 2 310)).

(** The largest [x] in [lo, hi) with [x^3 <= n], by bisection. *)
Fixpoint cube_root (fuel : nat) (n lo hi : N) : N :=
  match fuel with
  | O => lo
  | S fuel' =>
      if hi <=? lo + 1 then lo
      else
        let mid := (lo + hi) / 2 in
        if mid * mid * mid <=? n then cube_root fuel' n mid hi else cube_root fuel' n lo mid
  end.

Definition K : list N :=
  Eval vm_compute in
    List.map (fun p => w32 (cube_root 64 (N.shiftl p 96) 0 (N.shiftl 1 36))) primes.

Definition initial_words : list N :=
  Eval vm_compute in
    List.map (fun p => w32 (N.sqrt (N.shiftl p 64))) (firstn 8 primes).

(** Padding: a 1 bit, zeros up to 56 mod 64 bytes, the bit length on 8 bytes. *)
Definition be_bytes (width : nat) (x : N) : list N :=
  List.map (fun i => N.land (N.shiftr x (8 * N.of_nat i)) 0xff) (List.rev (seq 0 width)).

Definition pad (msg : list N) : list N :=
  let len := List.length msg in
  let zeros := ((64 - ((len + 9) mod 64)) mod 64)%nat in
  msg ++ [0x80] ++ List.repeat 0 zeros ++ be_bytes 8 (8 * N.of_nat len).

Fixpoint words (fuel : nat) (bytes : list N) : list N :=
  match fuel, bytes with
  | S fuel', a :: b :: c :: d :: rest =>
      (N.shiftl a 24 + N.shiftl b 16 + N.shiftl c 8 + d) :: words fuel' rest
  | _, _ => []
  end.

(** The message schedule: [w] holds W[0..i-1], extended up to index 63. *)
Fixpoint schedule (steps : nat) (w : list N) : list N :=
  match steps with
  | O => w
  | S steps' =>
      let i := List.length w in
      let at_ k := nth (i - k) w 0 in
      schedule steps'
        (w ++ [add32 (add32 (sigma1 (at_ 2%nat)) (at_ 7%nat))
                     (add32 (sigma0 (at_ 15%nat)) (at_ 16%nat))])
  end.

Definition state : Type := (N * N * N * N * N * N * N * N)%type.

Definition round (s : state) (kw : N * N) : state :=
  let '(a, b, c, d, e, f, g, h) := s in
  let t1 := add32 (add32 (add32 h (Sigma1 e)) (add32 (Ch e f g) (fst kw))) (snd kw) in
  let t2 := add32 (Sigma0 a) (Maj a b c) in
  (add32 t1 t2, a, b, c, add32 d t1, e, f, g).

Definition compress (s : state) (block : list N) : state :=
  let w := schedule 48 block in
  let '(a, b, c, d, e, f, g, h) := fold_left round (combine K w) s in
  let '(a0, b0, c0, d0, e0, f0, g0, h0) := s in
  (add32 a0 a, add32 b0 b, add32 c0 c, add32 d0 d,
   add32 e0 e, add32 f0 f, add32 g0 g, add32 h0 h).

Fixpoint blocks (fuel : nat) (s : state) (ws : list N) : state :=
  match fuel, ws with
  | S fuel', _ :: _ => blocks fuel' (compress s (firstn 16 ws)) (skipn 16 ws)
  | _, _ => s
  end.

Definition init : state :=
  match initial_words with
  | [a; b; c; d; e; f; g; h] => (a, b, c, d, e, f, g, h)
  | _ => (0, 0, 0, 0, 0, 0, 0, 0)
  end.

Definition hex_digit (n : N) : ascii :=
  if n <? 10 then ascii_of_N (48 + n) else ascii_of_N (87 + n).

Definition hex32 (x : N) : list ascii :=
  List.map (fun i => hex_digit (N.land (N.shiftr x (4 * N.of_nat i)) 0xf)) (List.rev (seq 0 8)).

Definition digest (msg : list N) : state :=
  let bytes := pad msg in
  let ws := words (List.length bytes) bytes in
  blocks (List.length ws) init ws.

(** [hashlib.sha256(s.encode()).hexdigest()]; [encode] is the identity on
    the bytes of an ASCII string. *)
Definition hexdigest (s : string) : string :=
  let '(a, b, c, d, e, f, g, h) := digest (List.map N_of_ascii (list_ascii_of_string s)) in
  string_of_list_ascii
    (hex32 a ++ hex32 b ++ hex32 c ++ hex32 d ++ hex32 e ++ hex32 f ++ hex32 g ++ hex32 h).

End Sha256.

(** ** Exceptions and results *)

Inductive exn : Type :=
| ZeroDivisionError
| KeyError (key : string)
| TypeError
| ValueError.

Inductive result (A : Type) : Type :=
| Ok (a : A)
| Raise (e : exn).
Arguments Ok {A} a.
Arguments Raise {A} e.

#[global] Instance result_ret : MRet result := fun A a => Ok a.
#[global] Instance result_bind : MBind result := fun A B f m =>
  match m with
  | Ok a => f a
  | Raise e => Raise e
  end.
#[global] Instance result_fmap : FMap result := fun A B f m =>
  match m with
  | Ok a => Ok (f a)
  | Raise e => Raise e
  end.

(** ** Numbers *)

Definition Qltb (a b : Q) : bool := negb (Qle_bool b a).

(** [a / b] on two integers (true division). *)
Definition truediv (a b : nat) : result Q :=
  if (b =? 0)%nat then Raise ZeroDivisionError
  else Ok (inject_Z (Z.of_nat a) / inject_Z (Z.of_nat b))%Q.

(** [a / b] on two floats. *)
Definition fdiv (a b : Q) : result Q :=
  if Qeq_bool b 0 then Raise ZeroDivisionError else Ok (a / b)%Q.

(** [int(x)]: truncation towards zero. *)
Definition py_int (x : Q) : Z := Z.quot (Qnum x) (Zpos (Qden x)).

(** [min(a, b)] and [max(a, b)] return their first argument on a tie. *)
Definition py_min (a b : Q) : Q := if Qltb b a then b else a.
Definition py_max (a b : Q) : Q := if Qltb a b then b else a.

Definition Qsum (l : list Q) : Q := fold_left Qplus l 0%Q.

(** ** Module constants *)

Definition COMMON_PASSWORDS : list string :=
  [ "password"; "123456"; "12345678"; "qwerty"; "abc123"; "monkey"; "1234567";
    "letmein"; "trustno1"; "dragon"; "baseball"; "111111"; "iloveyou"; "master";
    "sunshine"; "ashley"; "bailey"; "passw0rd"; "shadow"; "123123" ].

Definition KEYBOARD_PATTERNS : list string :=
  [ "qwerty"; "qwertyuiop"; "asdf"; "asdfgh"; "asdfghjkl"; "zxcv"; "zxcvbnm";
    "12345"; "123456"; "1234567"; "12345678"; "123456789"; "1234567890";
    "qaz"; "wsx"; "edc"; "rfv"; "tgb"; "yhn"; "ujm"; "ik"; "ol"; "p" ].

(** Keys and substitutes are one-character strings; the dict keeps its
    insertion order. *)
Definition LEET_SUBSTITUTIONS : list (ascii * list ascii) :=
  [ ("a", ["@"; "4"]); ("e", ["3"]); ("i", ["1"; "!"]); ("o", ["0"]);
    ("s", ["5"; "$"]); ("t", ["7"]); ("l", ["1"]); ("g", ["9"]);
    ("b", ["6"]); ("z", ["2"]) ]%char.

Definition CONFUSING_CHARS : list ascii := ["1"; "l"; "I"; "0"; "O"]%char.

(** The symbol class ["!@#$%^&*()_+-=[]{}|;:,.<>?"], also the character class
    of the two regular expressions of [_is_similar_password]. *)
Definition SYMBOLS : string := "!@#$%^&*()_+-=[]{}|;:,.<>?".
Definition is_symbol (c : ascii) : bool := PyStr.mem c SYMBOLS.

Definition is_confusing (c : ascii) : bool := existsb (Ascii.eqb c) CONFUSING_CHARS.
Definition is_vowel (c : ascii) : bool := PyStr.mem c "aeiou".

(** ** Data model *)

(** One finding of [detect_patterns]: the dict with keys type, description,
    penalty. *)
Record Pattern : Type := {
  ptype : string;
  description : string;
  penalty : Q
}.

(** One entry of [password_history]: (hash, score, timestamp). *)
Definition HistoryEntry : Type := (string * Q * string)%type.

(** The result dict of the zxcvbn estimator: its score, and its feedback
    dict when it has one. *)
Record ZxcvbnResult : Type := {
  zx_score : Z;
  zx_feedback : option (list (string * string))
}.

(** A value stored in the analysis dict. *)
Inductive Value : Type :=
| VNum (x : Q)
| VStr (s : string)
| VPatterns (l : list Pattern)
| VDict (items : list (string * string)).

(** What the module finds around it when it runs: the two logarithms of
    [math] and the optional estimator ([None] when [import zxcvbn] failed;
    the estimator answers [None] when it raises). *)
Record Runtime : Type := {
  math_log : Q -> Q;
  math_log2 : Q -> Q;
  zxcvbn : option (string -> option ZxcvbnResult)
}.

(** The instance attributes of [PasswordIntelligence] that change or
    configure a run; [common_passwords_set] and [score_thresholds] are
    constants. *)
Record PasswordIntelligence : Type := {
  strictness_mode : string;
  language : string;
  password_history : list HistoryEntry
}.

Definition __init__ (strictness_mode language : string) : PasswordIntelligence :=
  {| strictness_mode := strictness_mode; language := language; password_history := [] |}.

Definition common_passwords_set : gset string :=
  list_to_set (List.map PyStr.lower COMMON_PASSWORDS).

(** ** Similarity matcher *)

(** [_reverse_leet_speak] *)
Definition _reverse_leet_speak (password : string) : string :=
  fold_left
    (fun result '(char, substitutions) =>
       fold_left (fun result sub => PyStr.replace sub char result) substitutions result)
    LEET_SUBSTITUTIONS password.

(** The inner loop of [_simple_edit_distance] over [s2] from index [j]. *)
Fixpoint edit_row (c1 : ascii) (s2 : list ascii) (j : nat)
    (previous_row current_row : list nat) : list nat :=
  match s2 with
  | [] => current_row
  | c2 :: s2' =>
      let insertions := (nth (j + 1) previous_row 0 + 1)%nat in
      let deletions := (nth j current_row 0 + 1)%nat in
      let substitutions := (nth j previous_row 0 + (if Ascii.eqb c1 c2 then 0 else 1))%nat in
      edit_row c1 s2' (S j) previous_row
        (current_row ++ [Nat.min (Nat.min insertions deletions) substitutions])
  end.

(** The outer loop over [s1] from index [i]. *)
Fixpoint edit_rows (s1 : list ascii) (i : nat) (s2 : list ascii)
    (previous_row : list nat) : list nat :=
  match s1 with
  | [] => previous_row
  | c1 :: s1' => edit_rows s1' (S i) s2 (edit_row c1 s2 0 previous_row [(i + 1)%nat])
  end.

Definition _simple_edit_distance (s1 s2 : string) : nat :=
  let '(s1, s2) :=
    if (String.length s1 <? String.length s2)%nat then (s2, s1) else (s1, s2) in
  if String.eqb s2 "" then String.length s1
  else if (2 <? String.length s1 - String.length s2)%nat then 3%nat
  else List.last
         (edit_rows (PyStr.chars s1) 0 (PyStr.chars s2) (seq 0 (String.length s2 + 1)))
         0%nat.

Definition _is_similar_password (password common_pwd : string) : bool :=
  let cleaned_password := PyStr.lstrip is_symbol password in
  let cleaned_password :=
    PyStr.rstrip_dollar (fun c => is_symbol c || PyStr.isdigit c) cleaned_password in
  let deleet_password := _reverse_leet_speak cleaned_password in
  String.eqb deleet_password common_pwd
  || String.eqb cleaned_password common_pwd
  || (_simple_edit_distance deleet_password common_pwd <=? 2)%nat.

Definition check_common_passwords (password : string) : bool * Q :=
  let password_lower := PyStr.lower password in
  if bool_decide (password_lower ∈ common_passwords_set) then (true, 0.9%Q)
  else if existsb (fun common_pwd => _is_similar_password password_lower (PyStr.lower common_pwd))
            COMMON_PASSWORDS
  then (true, 0.7%Q)
  else (false, 0.0%Q).

(** ** Pattern library *)

Definition keyboard_findings (password_lower : string) : list Pattern :=
  List.map
    (fun pattern =>
       {| ptype := "keyboard_sequence";
          description := "Contains keyboard sequence '" ++ pattern ++ "'";
          penalty := 0.3 |})
    (List.filter (fun pattern => PyStr.contains pattern password_lower) KEYBOARD_PATTERNS).

Definition repeated_character_findings (password : string) : list Pattern :=
  List.map
    (fun char =>
       {| ptype := "repeated_character";
          description := "Character '" ++ String char "" ++ "' repeats "
                         ++ PyStr.of_nat (PyStr.count char password) ++ " times";
          penalty := 0.2 * inject_Z (Z.of_nat (PyStr.count char password) - 2) |})
    (List.filter (fun char => (3 <=? PyStr.count char password)%nat) (PyStr.distinct password)).

Definition repeated_token_findings (password : string) : list Pattern :=
  let n := String.length password in
  if (6 <=? n)%nat then
    match
      List.find
        (fun i =>
           let token := PyStr.take i password in
           String.eqb (PyStr.repeat token (n / i))
                      (PyStr.take (String.length token * (n / i)) password))
        (seq 2 (n / 2 + 1 - 2))
    with
    | Some i =>
        [ {| ptype := "repeated_token";
             description := "Repeating pattern '" ++ PyStr.take i password ++ "'";
             penalty := 0.4 |} ]
    | None => []
    end
  else [].

Definition year_findings (password : string) : list Pattern :=
  let current_year := 2025%nat in
  List.map
    (fun year =>
       {| ptype := "year_pattern";
          description := "Contains year '" ++ PyStr.of_nat year ++ "'";
          penalty := 0.15 |})
    (List.filter (fun year => PyStr.contains (PyStr.of_nat year) password)
       (seq 1950 (current_year + 10 - 1950))).

Definition number_sequence_findings (password : string) : list Pattern :=
  let sequences := ["123"; "234"; "345"; "456"; "567"; "678"; "789"; "890"] in
  List.map
    (fun sq =>
       {| ptype := "number_sequence";
          description := "Contains number sequence '" ++ sq ++ "'";
          penalty := 0.25 |})
    (List.filter
       (fun sq => PyStr.contains sq password || PyStr.contains (PyStr.rev sq) password)
       sequences).

Definition palindrome_findings (password password_lower : string) : list Pattern :=
  if (5 <=? String.length password)%nat && String.eqb password_lower (PyStr.rev password_lower)
  then [ {| ptype := "palindrome";
            description := "Password is a palindrome (e.g., 'deked')";
            penalty := 0.2 |} ]
  else [].

Definition low_vowels_findings (password password_lower : string) : result (list Pattern) :=
  let vowel_count := PyStr.count_if is_vowel password_lower in
  if (8 <=? String.length password)%nat then
    ratio ← truediv vowel_count (String.length password);
    mret (if Qltb ratio 0.1%Q
          then [ {| ptype := "low_vowels";
                    description := "Low vowel frequency (possibly random)";
                    penalty := 0.3 |} ]
          else [])
  else mret [].

(** [all(password[j] == password[j % 2] for j in range(len(password)))] *)
Definition all_alternate (password : string) : bool :=
  forallb
    (fun j => bool_decide (String.get j password = String.get (j mod 2) password))
    (seq 0 (String.length password)).

Definition alternating_findings (password : string) : list Pattern :=
  match
    List.find (fun _ : nat => all_alternate password)
      (seq 2 (String.length password / 2 + 1 - 2))
  with
  | Some _ =>
      [ {| ptype := "alternating_pattern";
           description := "Alternating pattern detected";
           penalty := 0.3 |} ]
  | None => []
  end.

Definition excessive_symbols_findings (password : string) : result (list Pattern) :=
  let symbol_count := PyStr.count_if is_symbol password in
  ratio ← truediv symbol_count (String.length password);
  mret (if Qltb 0.5%Q ratio
        then [ {| ptype := "excessive_symbols";
                  description := "Too many symbols reduce readability";
                  penalty := 0.2 |} ]
        else []).

(** [detect_patterns]: the nine checks in the order of the source, each
    appending its findings to [patterns]. *)
Definition detect_patterns (password : string) : result (list Pattern) :=
  let password_lower := PyStr.lower password in
  let patterns :=
    (keyboard_findings password_lower
     ++ repeated_character_findings password
     ++ repeated_token_findings password
     ++ year_findings password
     ++ number_sequence_findings password
     ++ palindrome_findings password password_lower)%list in
  low ← low_vowels_findings password password_lower;
  let patterns := (patterns ++ low ++ alternating_findings password)%list in
  excessive ← excessive_symbols_findings password;
  mret (patterns ++ excessive)%list.

(** ** Confusing characters and pronounceability *)

Definition check_confusing_chars (password : string) : bool * Q :=
  let confusing_count := PyStr.count_if is_confusing password in
  let consecutive_confusing :=
    existsb
      (fun i =>
         match String.get i password, String.get (i + 1) password with
         | Some a, Some b => is_confusing a && is_confusing b
         | _, _ => false
         end)
      (seq 0 (String.length password - 1)) in
  let penalty : Q :=
    (if consecutive_confusing then 0.3
     else if (2 <=? confusing_count)%nat then 0.2 else 0.0)%Q in
  ((2 <=? confusing_count)%nat || consecutive_confusing, penalty).

(** The loop of [estimate_pronounceability]: vowel runs of [s]. *)
Fixpoint syllables (prev_vowel : bool) (s : string) : nat :=
  match s with
  | EmptyString => 0
  | String c s' =>
      ((if is_vowel c && negb prev_vowel then 1 else 0) + syllables (is_vowel c) s')%nat
  end.

Definition estimate_pronounceability (password : string) : result Q :=
  let syllable_count := syllables false (PyStr.lower password) in
  quarter ← truediv (String.length password) 4;
  ratio ← fdiv (inject_Z (Z.of_nat syllable_count)) quarter;
  mret (py_min 1.0%Q ratio).

(** ** History ledger *)

(** [password.encode()] is the string itself, a [str] being kept as its
    UTF-8 bytes.  The UnicodeEncodeError of a [str] with a lone surrogate
    has no counterpart: no string of the model stands for such a [str]. *)
Definition check_password_reuse (self : PasswordIntelligence) (password : string) : bool * Q :=
  let pwd_hash := Sha256.hexdigest password in
  if existsb (fun '(stored_hash, _, _) => String.eqb stored_hash pwd_hash)
       (password_history self)
  then (true, 0.5%Q) else (false, 0.0%Q).

(** [now] is what [datetime.now().strftime(...)] returns during the call. *)
Definition add_to_history (self : PasswordIntelligence) (now : string)
    (password : string) (score : Q) : PasswordIntelligence :=
  let pwd_hash := Sha256.hexdigest password in
  let history := (password_history self ++ [(pwd_hash, score, now)])%list in
  let history := if (50 <? List.length history)%nat then List.tl history else history in
  {| strictness_mode := strictness_mode self;
     language := language self;
     password_history := history |}.

(** ** Scoring engine *)

(** Lines 331-335: the length component. *)
Definition length_score (rt : Runtime) (password : string) : Q :=
  let length := Z.of_nat (String.length password) in
  if (length <? 8)%Z then py_max 0%Q (inject_Z (length * 5))
  else py_min 50%Q (20 + 10 * math_log rt (inject_Z (length - 5)))%Q.

(** Lines 338-344: how many of the four character classes are present. *)
Definition variety_count (password : string) : nat :=
  let char_types :=
    [ PyStr.any PyStr.islower password;
      PyStr.any PyStr.isupper password;
      PyStr.any PyStr.isdigit password;
      PyStr.any is_symbol password ] in
  List.length (List.filter id char_types).

(** Line 345: the variety component. *)
Definition variety_score (password : string) : Q :=
  py_min 25%Q (inject_Z (Z.of_nat (variety_count password)) * 6.25)%Q.

(** Lines 338-345 over any alphabet: the password is the list of its
    characters and the four tests on one character are the parameters
    [lower], [upper], [digit] and [symbol], so that the definitions read on
    the code points of a [str] with Python's own [str.islower],
    [str.isupper], [str.isdigit] and membership in the symbol string.
    [variety_count] and [variety_score] are the instance on bytes with the
    ASCII tests. *)
Section Alphabet.

Context {C : Type} (lower upper digit symbol : C -> bool).

Definition variety_count_over (password : list C) : nat :=
  let char_types :=
    [ existsb lower password;
      existsb upper password;
      existsb digit password;
      existsb symbol password ] in
  List.length (List.filter id char_types).

Definition variety_score_over (password : list C) : Q :=
  py_min 25%Q (inject_Z (Z.of_nat (variety_count_over password)) * 6.25)%Q.

(** [c] belongs to a character class that [password] does not have yet. *)
Definition brings_missing_class_over (password : list C) (c : C) : bool :=
  lower c && negb (existsb lower password)
  || upper c && negb (existsb upper password)
  || digit c && negb (existsb digit password)
  || symbol c && negb (existsb symbol password).

End Alphabet.

(** Lines 352-356: the uniqueness component; [len(password)] is positive
    here, [score_password] has returned on the empty password. *)
Definition uniqueness_score (rt : Runtime) (password : string) : Q :=
  let lowered := PyStr.lower password in
  let char_freq := List.map (fun c => PyStr.count c lowered) (PyStr.distinct lowered) in
  if (1 <? List.length char_freq)%nat then
    let n := inject_Z (Z.of_nat (String.length password)) in
    let entropy_estimate :=
      (- Qsum (List.map
                 (fun freq =>
                    let f := inject_Z (Z.of_nat freq) in f / n * math_log2 rt (f / n))
                 char_freq))%Q in
    py_min 15%Q (entropy_estimate * 3)%Q
  else 0%Q.

(** Lines 379-380: the hint bonus. *)
Definition hint_relevance_score (password hint : string) : Q :=
  if negb (String.eqb hint "") && PyStr.contains (PyStr.lower hint) (PyStr.lower password)
  then 5%Q else 0%Q.

(** Lines 348-349: the bonus for a balanced password. *)
Definition bonus_points (password : string) : Q :=
  if (3 <=? variety_count password)%nat && (8 <=? String.length password)%nat
  then (0 + 5)%Q else 0%Q.

(** Lines 383-388: the local final score from the components. *)
Definition local_final_score
    (length_score variety_score uniqueness_score pronounceability_score
     hint_relevance_score bonus_points
     total_penalty blacklist_penalty confusing_penalty reuse_penalty : Q) : Q :=
  let base_score :=
    (length_score + variety_score + uniqueness_score + pronounceability_score
     + hint_relevance_score + bonus_points)%Q in
  py_max 0%Q (py_min 100%Q (base_score - total_penalty - blacklist_penalty
                            - confusing_penalty - reuse_penalty)%Q).

(** Lines 390-397: the blend with zxcvbn, when it is there and does not
    raise. *)
Definition zxcvbn_blend (rt : Runtime) (password : string) (final_score : Q)
    (analysis : gmap string Value) : Q * gmap string Value :=
  match zxcvbn rt with
  | Some estimator =>
      match estimator password with
      | Some zxcvbn_result =>
          let zxcvbn_score := (inject_Z (zx_score zxcvbn_result) / 4.0 * 100)%Q in
          (inject_Z (py_int (final_score * 0.7 + zxcvbn_score * 0.3)%Q),
           <[ "zxcvbn_feedback" := VDict (default [] (zx_feedback zxcvbn_result)) ]> analysis)
      | None => (final_score, analysis)
      end
  | None => (final_score, analysis)
  end.

Definition score_password (rt : Runtime) (self : PasswordIntelligence) (now : string)
    (password hint : string)
    : result (Z * gmap string Value * PasswordIntelligence) :=
  if String.eqb password "" then
    mret (0%Z, {[ "error" := VStr "Empty password" ]}, self)
  else
    let length_score := length_score rt password in
    let variety_score := variety_score password in
    let bonus_points := bonus_points password in
    let uniqueness_score := uniqueness_score rt password in
    pronounceability ← estimate_pronounceability password;
    let pronounceability_score := (pronounceability * 10)%Q in
    patterns ← detect_patterns password;
    let total_penalty := Qsum (List.map (fun pattern => penalty pattern * 10)%Q patterns) in
    let '(is_common, blacklist_penalty) := check_common_passwords password in
    let blacklist_penalty := (blacklist_penalty * 30)%Q in
    let '(is_confusing, confusing_penalty) := check_confusing_chars password in
    let confusing_penalty := (confusing_penalty * 10)%Q in
    let '(is_reused, reuse_penalty) := check_password_reuse self password in
    let reuse_penalty := (reuse_penalty * 10)%Q in
    let hint_relevance_score := hint_relevance_score password hint in
    let analysis : gmap string Value :=
      <[ "total_penalty" := VNum total_penalty ]>
      (<[ "length_score" := VNum length_score ]>
      (<[ "variety_score" := VNum variety_score ]>
      (<[ "uniqueness_score" := VNum uniqueness_score ]>
      (<[ "pronounceability_score" := VNum pronounceability_score ]>
      (<[ "pattern_penalties" := VPatterns patterns ]>
      (<[ "blacklist_penalty" := VNum blacklist_penalty ]>
      (<[ "confusing_penalty" := VNum confusing_penalty ]>
      (<[ "reuse_penalty" := VNum reuse_penalty ]>
      (<[ "hint_relevance_score" := VNum hint_relevance_score ]>
      (<[ "bonus_points" := VNum bonus_points ]> ∅)))))))))) in
    let final_score :=
      local_final_score length_score variety_score uniqueness_score pronounceability_score
        hint_relevance_score bonus_points
        total_penalty blacklist_penalty confusing_penalty reuse_penalty in
    let '(final_score, analysis) := zxcvbn_blend rt password final_score analysis in
    let self := add_to_history self now password final_score in
    mret (py_int final_score, analysis, self).

(** Lines 127-132; [len(password)] is the number of code points. *)
Definition is_valid_password (rt : Runtime) (self : PasswordIntelligence) (now : string)
    (password : string) : result (bool * PasswordIntelligence) :=
  if (PyStr.len password <? 8)%nat then mret (false, self)
  else
    '(score, _, self) ← score_password rt self now password "";
    mret ((60 <=? score)%Z, self).

(** ** Memorable passwords *)

(** The generator [random] is a tape of raw draws, read left to right; an
    exhausted tape keeps drawing 0. *)
Definition draw (tape : list nat) : nat * list nat :=
  match tape with
  | [] => (0%nat, [])
  | r :: tape' => (r, tape')
  end.

(** [random.choice(l)] on a non-empty list. *)
Definition choice (l : list string) (tape : list nat) : string * list nat :=
  let '(r, tape) := draw tape in (nth (r mod List.length l) l "", tape).

(** [random.randint(a, b)] *)
Definition randint (a b : nat) (tape : list nat) : nat * list nat :=
  let '(r, tape) := draw tape in ((a + r mod (b - a + 1))%nat, tape).

Record Complexity : Type := {
  symbols : list string;
  numbers : bool;
  transformations : bool
}.

Definition complexity_configs : gmap string Complexity :=
  <[ "simple" := {| symbols := ["!"; "#"]; numbers := true; transformations := false |} ]>
  (<[ "balanced" := {| symbols := ["!"; "@"; "#"; "$"]; numbers := true;
                       transformations := true |} ]>
  (<[ "complex" := {| symbols := ["!"; "@"; "#"; "$"; "%"]; numbers := true;
                      transformations := true |} ]> ∅)).

Definition is_alnum (c : ascii) : bool :=
  PyStr.islower c || PyStr.isupper c || PyStr.isdigit c.

Definition generate_memorable_password (tape : list nat) (hint : string) (length : nat)
    (complexity : string) : string * list nat :=
  let hint := if String.eqb hint "" then "Secure" else hint in
  let hint_clean := PyStr.title (PyStr.filter is_alnum hint) in
  let hint_clean :=
    if (String.length hint_clean <? 3)%nat then "Secure" ++ hint_clean else hint_clean in
  let config :=
    default {| symbols := ["!"; "@"; "#"; "$"]; numbers := true; transformations := true |}
      (complexity_configs !! complexity) in
  let first_component :=
    if transformations config then
      let transformed_hint := hint_clean in
      let transformed_hint :=
        if PyStr.mem "a" (PyStr.lower transformed_hint)
        then PyStr.replace "A" "@" (PyStr.replace "a" "@" transformed_hint)
        else transformed_hint in
      let transformed_hint :=
        if PyStr.mem "e" (PyStr.lower transformed_hint)
        then PyStr.replace "E" "3" (PyStr.replace "e" "3" transformed_hint)
        else transformed_hint in
      transformed_hint
    else hint_clean in
  let '(word, tape) := choice ["Secure"; "Strong"; "Safe"] tape in
  let '(year, tape) :=
    if numbers config
    then let '(y, tape) := randint 2020 2025 tape in (PyStr.of_nat y, tape)
    else ("", tape) in
  let '(symbol, tape) := choice (symbols config) tape in
  let password := first_component ++ word ++ year ++ symbol in
  if (String.length password <? length)%nat then
    let '(suffix, tape) := choice ["Pro"; "Max"; "Plus"] tape in
    (password ++ suffix, tape)
  else if (length <? String.length password)%nat then (PyStr.take length password, tape)
  else (password, tape).

(** ** Feedback *)

Definition TRANSLATIONS : gmap string (gmap string string) :=
  <[ "en" := list_to_map
    [
      ("welcome", "Welcome to Smart Password Intelligence!");
      ("enter_password", "Enter your password:");
      ("hint_label", "Hint (optional):");
      ("show_password", "Show password");
      ("analyze", "Analyze");
      ("suggest", "Suggest");
      ("generate", "Generate");
      ("clear", "Clear");
      ("strength", "Password Strength: {strength} ({score}/100)");
      ("valid", "✓ Valid");
      ("invalid", "✗ Invalid");
      ("empty_error", "Please enter a password.");
      ("hint_error", "Provide a hint for personalized passwords.");
      ("strengths", "Strengths: {points}");
      ("improve", "Areas to improve:");
      ("tip", "Tip: Aim for 60+ for most accounts, 80+ for critical ones.") ] ]>
  (<[ "hi" := list_to_map
    [
      ("welcome", "स्मार्ट पासवर्ड इंटेलिजेंस में आपका स्वागत है!");
      ("enter_password", "अपना पासवर्ड दर्ज करें:");
      ("hint_label", "संकेत (वैकल्पिक):");
      ("show_password", "पासवर्ड दिखाएं");
      ("analyze", "विश्लेषण");
      ("suggest", "सुझाव");
      ("generate", "उत्पन्न करें");
      ("clear", "साफ़ करें");
      ("strength", "पासवर्ड की ताकत: {strength} ({score}/100)");
      ("valid", "✓ वैध");
      ("invalid", "✗ अमान्य");
      ("empty_error", "कृपया एक पासवर्ड दर्ज करें।");
      ("hint_error", "वैयक्तिकृत पासवर्ड के लिए एक संकेत प्रदान करें।");
      ("strengths", "ताकत: {points}");
      ("improve", "सुधार के लिए क्षेत्र:");
      ("tip", "सुझाव: सामान्य खातों के लिए 60+ और महत्वपूर्ण खातों के लिए 80+ का लक्ष्य रखें।") ] ]> ∅).

Definition score_thresholds : gmap string (gmap string Z) :=
  <[ "lenient" := list_to_map [("weak", 30%Z); ("fair", 50%Z); ("good", 70%Z); ("excellent", 85%Z)] ]>
  (<[ "balanced" := list_to_map [("weak", 40%Z); ("fair", 60%Z); ("good", 80%Z); ("excellent", 90%Z)] ]>
  (<[ "strict" := list_to_map [("weak", 50%Z); ("fair", 70%Z); ("good", 85%Z); ("excellent", 95%Z)] ]> ∅)).

(** [d[key]] *)
Definition lookup_key {V : Type} (d : gmap string V) (key : string) : result V :=
  match d !! key with
  | Some v => Ok v
  | None => Raise (KeyError key)
  end.

(** A value compared with a number. *)
Definition as_number (v : Value) : result Q :=
  match v with
  | VNum x => Ok x
  | _ => Raise TypeError
  end.

(** [analysis[key]] in a comparison with a number. *)
Definition number_at (analysis : gmap string Value) (key : string) : result Q :=
  lookup_key analysis key ≫= as_number.

(** [len(v)] *)
Definition py_len (v : Value) : result nat :=
  match v with
  | VNum _ => Raise TypeError
  | VStr s => Ok (String.length s)
  | VPatterns l => Ok (List.length l)
  | VDict items => Ok (List.length items)
  end.

(** [[p["description"] for p in v]] under [if v:]: only a list of findings
    can be read this way; another value that is not empty raises. *)
Definition descriptions_of (v : Value) : result (list string) :=
  match v with
  | VPatterns l => Ok (List.map description l)
  | VNum x => if Qeq_bool x 0 then Ok [] else Raise TypeError
  | VStr s => if String.eqb s "" then Ok [] else Raise TypeError
  | VDict items => match items with [] => Ok [] | _ :: _ => Raise TypeError end
  end.

(** [template.format(name=value, ...)] with named fields. *)
Fixpoint format_from (field : option string) (args : list (string * string))
    (template : string) : result string :=
  match template with
  | EmptyString =>
      match field with
      | None => Ok ""
      | Some _ => Raise ValueError
      end
  | String c template' =>
      match field with
      | None =>
          if Ascii.eqb c "{" then format_from (Some "") args template'
          else if Ascii.eqb c "}" then Raise ValueError
          else rest ← format_from None args template'; mret (String c rest)
      | Some name =>
          if Ascii.eqb c "}" then
            match List.find (fun '(k, _) => String.eqb k name) args with
            | Some (_, v) => rest ← format_from None args template'; mret (v ++ rest)
            | None => Raise (KeyError name)
            end
          else format_from (Some (name ++ String c "")) args template'
      end
  end.
Definition format (template : string) (args : list (string * string)) : result string :=
  format_from None args template.

(** [sep.join(l)] *)
Fixpoint join (sep : string) (l : list string) : string :=
  match l with
  | [] => ""
  | [x] => x
  | x :: l' => x ++ sep ++ join sep l'
  end.

Definition NL : string := String "010" "".

(** [f"   {i}. {issue}"] for [i, issue in enumerate(issues, 1)] *)
Fixpoint numbered (i : nat) (issues : list string) : list string :=
  match issues with
  | [] => []
  | issue :: issues' => ("   " ++ PyStr.of_nat i ++ ". " ++ issue) :: numbered (S i) issues'
  end.

Definition give_feedback (self : PasswordIntelligence) (score : Z)
    (analysis : gmap string Value) : result string :=
  english ← lookup_key TRANSLATIONS "en";
  let t := default english (TRANSLATIONS !! language self) in
  threshold ← lookup_key score_thresholds (strictness_mode self);
  weak ← lookup_key threshold "weak";
  strength ←
    (if (score <? weak)%Z then mret "Weak"
     else
       fair ← lookup_key threshold "fair";
       if (score <? fair)%Z then mret "Fair"
       else
         good ← lookup_key threshold "good";
         mret (if (score <? good)%Z then "Good" else "Excellent"));
  emoji ←
    (if (score <? weak)%Z then mret "🔴"
     else
       fair ← lookup_key threshold "fair";
       mret (if (score <? fair)%Z then "🟡" else "🟢"));
  strength_template ← lookup_key t "strength";
  strength_line ←
    format strength_template [("strength", strength); ("score", PyStr.of_Z score)];
  let feedback := [strength_line] in
  length_score ← number_at analysis "length_score";
  let positive_points := if Qle_bool 35 length_score then ["good length"] else [] in
  variety_score ← number_at analysis "variety_score";
  let positive_points :=
    if Qle_bool 15 variety_score
    then (positive_points ++ ["nice character variety"])%list else positive_points in
  uniqueness_score ← number_at analysis "uniqueness_score";
  let positive_points :=
    if Qle_bool 10 uniqueness_score
    then (positive_points ++ ["good character distribution"])%list else positive_points in
  pronounceability_score ← number_at analysis "pronounceability_score";
  let positive_points :=
    if Qle_bool 8 pronounceability_score
    then (positive_points ++ ["easy to pronounce"])%list else positive_points in
  bonus_points ← number_at analysis "bonus_points";
  let positive_points :=
    if Qltb 0 bonus_points
    then (positive_points ++ ["well-balanced composition"])%list else positive_points in
  feedback ←
    match positive_points with
    | [] => mret feedback
    | _ :: _ =>
        strengths_template ← lookup_key t "strengths";
        line ← format strengths_template [("points", join ", " positive_points)];
        mret (feedback ++ [line])%list
    end;
  error_length ←
    match analysis !! "error" with
    | Some v => py_len v
    | None => mret 0%nat
    end;
  let issues := if (0 <? error_length)%nat then ["Password cannot be empty"] else [] in
  length_score ← number_at analysis "length_score";
  let issues :=
    if Qltb length_score 25
    then (issues ++ ["Password is too short - aim for 8+ characters"])%list else issues in
  variety_score ← number_at analysis "variety_score";
  let issues :=
    if Qltb variety_score 15
    then (issues ++ ["Add more character types (uppercase, numbers, symbols)"])%list
    else issues in
  blacklist_penalty ← number_at analysis "blacklist_penalty";
  let issues :=
    if Qltb 20 blacklist_penalty
    then (issues ++ ["Password is too common or similar to common passwords"])%list
    else issues in
  confusing_penalty ← number_at analysis "confusing_penalty";
  let issues :=
    if Qltb 0 confusing_penalty
    then (issues ++ ["Avoid confusing characters like '1', 'l', 'I', '0', 'O' together"])%list
    else issues in
  reuse_penalty ← number_at analysis "reuse_penalty";
  let issues :=
    if Qltb 0 reuse_penalty
    then (issues ++ ["Password was used before - choose a new one"])%list else issues in
  pattern_penalties ← lookup_key analysis "pattern_penalties";
  pattern_issues ← descriptions_of pattern_penalties;
  let patterns_line := "Predictable patterns: " ++ join "; " pattern_issues in
  let issues :=
    match pattern_issues with
    | [] => issues
    | _ :: _ => (issues ++ [patterns_line])%list
    end in
  feedback ←
    match issues with
    | [] => mret feedback
    | _ :: _ =>
        improve ← lookup_key t "improve";
        let improve_line := NL ++ improve in
        mret (feedback ++ [improve_line] ++ numbered 1 issues)%list
    end;
  tip ← lookup_key t "tip";
  let tip_line := NL ++ tip in
  mret (join NL (feedback ++ [tip_line])%list).

(** ** Runs and observations used in the statements *)

(** A sequence of scoring calls on one instance; each call is
    (now, password, hint). *)
Fixpoint score_all (rt : Runtime) (self : PasswordIntelligence)
    (calls : list (string * string * string)) : result PasswordIntelligence :=
  match calls with
  | [] => mret self
  | (now, password, hint) :: calls' =>
      '(_, _, self) ← score_password rt self now password hint;
      score_all rt self calls'
  end.

(** A sequence of [add_to_history] calls; each is (now, password, score). *)
Fixpoint record_all (self : PasswordIntelligence)
    (records : list (string * string * Q)) : PasswordIntelligence :=
  match records with
  | [] => self
  | (now, password, score) :: records' =>
      record_all (add_to_history self now password score) records'
  end.

(** The entry of the breakdown under [key] after one scoring call. *)
Definition breakdown_field (rt : Runtime) (self : PasswordIntelligence) (now : string)
    (password hint key : string) : option Value :=
  match score_password rt self now password hint with
  | Ok (_, analysis, _) => analysis !! key
  | Raise _ => None
  end.

(** The estimator, when present, answers with a score from 0 to 4, which
    [score_password] normalizes to 0-100. *)
Definition oracle_normalized (rt : Runtime) : Prop :=
  forall estimator password r,
    zxcvbn rt = Some estimator -> estimator password = Some r ->
    (0 <= zx_score r <= 4)%Z.

(** The ledger holds an entry with digest [d], followed by at most [k]
    younger entries. *)
Definition retained (k : nat) (d : string) (history : list HistoryEntry) : Prop :=
  exists older score timestamp younger,
    history = (older ++ (d, score, timestamp) :: younger)%list
    /\ (List.length younger <= k)%nat.

(** The ledger after appending [entry], as [add_to_history] leaves it. *)
Definition pushed (history : list HistoryEntry) (entry : HistoryEntry) : list HistoryEntry :=
  let history := (history ++ [entry])%list in
  if (50 <? List.length history)%nat then List.tl history else history.

Definition has_type (t : string) (patterns : list Pattern) : bool :=
  existsb (fun p => String.eqb (ptype p) t) patterns.

(** ** A reference runtime

    Rational logarithms accurate to about twelve digits, for running the
    model on concrete inputs; zxcvbn is not installed. *)

Module Libm.
Local Open Scope Q_scope.

(** [2 * (z + z^3/3 + z^5/5 + ...)], [terms] terms from exponent [k]. *)
Fixpoint atanh2 (terms : nat) (zpow zz : Q) (k : positive) : Q :=
  match terms with
  | O => 0
  | S terms' =>
      Qred (2 * zpow / inject_Z (Zpos k) + atanh2 terms' (Qred (zpow * zz)) zz (k + 2))
  end.

(** The logarithm on [1, 2]. *)
Definition ln_unit (m : Q) : Q :=
  let z := Qred ((m - 1) / (m + 1)) in atanh2 14 z (Qred (z * z)) 1.

Definition ln2 : Q := Eval vm_compute in ln_unit 2.

Fixpoint ln_scaled (fuel : nat) (x : Q) : Q :=
  match fuel with
  | O => ln_unit x
  | S fuel' =>
      if Qle_bool 2 x then Qred (ln2 + ln_scaled fuel' (Qred (x / 2)))
      else if Qltb x 1 then Qred (ln_scaled fuel' (Qred (x * 2)) - ln2)
      else ln_unit x
  end.

Definition log (x : Q) : Q := if Qle_bool x 0 then 0 else ln_scaled 64 x.
Definition log2 (x : Q) : Q := Qred (log x / ln2).

End Libm.

Definition reference_runtime : Runtime :=
  {| math_log := Libm.log; math_log2 := Libm.log2; zxcvbn := None |}.

(** The same with an estimator that answers 3 to every password. *)
Definition runtime_with_zxcvbn : Runtime :=
  {| math_log := Libm.log;
     math_log2 := Libm.log2;
     zxcvbn := Some (fun _ => Some {| zx_score := 3; zx_feedback := None |}) |}.

(** The keys of the component scores of a breakdown. *)
Definition COMPONENT_KEYS : list string :=
  [ "length_score"; "variety_score"; "uniqueness_score"; "pronounceability_score";
    "bonus_points"; "pattern_penalties"; "blacklist_penalty"; "confusing_penalty";
    "reuse_penalty" ].

(** ** Strength bar, suggestions and generators *)

(** [format_strength_bar]; the cells are the UTF-8 bytes of the block
    characters. *)
Definition format_strength_bar (score width : Z) : string :=
  let filled_chars := py_int (inject_Z score / 100 * inject_Z width)%Q in
  let empty_chars := (width - filled_chars)%Z in
  let fill_char :=
    if (80 <=? score)%Z then "█"
    else if (60 <=? score)%Z then "▓"
    else if (40 <=? score)%Z then "▒" else "░" in
  "[" ++ PyStr.repeat fill_char (Z.to_nat filled_chars)
      ++ PyStr.repeat "░" (Z.to_nat empty_chars)
      ++ "] " ++ PyStr.of_Z score ++ "/100".

(** What a method of the suggestion generator raises: an exception of the
    scoring engine, or the IndexError of [enhanced[0]] on an empty string. *)
Inductive raised : Type :=
| Engine (e : exn)
| IndexError.

Inductive outcome (A : Type) : Type :=
| Returned (a : A)
| Failed (e : raised).
Arguments Returned {A} a.
Arguments Failed {A} e.

#[global] Instance outcome_ret : MRet outcome := fun A a => Returned a.
#[global] Instance outcome_bind : MBind outcome := fun A B f m =>
  match m with
  | Returned a => f a
  | Failed e => Failed e
  end.

Definition of_result {A : Type} (r : result A) : outcome A :=
  match r with
  | Ok a => Returned a
  | Raise e => Failed (Engine e)
  end.

(** The characters ["!@#$%^&*()"] of [_enhance_existing_password]. *)
Definition is_shift_symbol (c : ascii) : bool := PyStr.mem c "!@#$%^&*()".

Definition _enhance_existing_password (tape : list nat) (password : string)
    : outcome (string * list nat) :=
  let enhanced := password in
  enhanced ←
    (if negb (PyStr.any PyStr.isupper enhanced) then
       match enhanced with
       | EmptyString => Failed IndexError
       | String first rest =>
           mret (if PyStr.islower first then String (PyStr.upper_char first) rest
                 else enhanced)
       end
     else mret enhanced);
  let '(enhanced, tape) :=
    if negb (PyStr.any is_shift_symbol enhanced)
    then let '(symbol, tape) := choice ["!"; "#"; "$"] tape in (enhanced ++ symbol, tape)
    else (enhanced, tape) in
  let '(enhanced, tape) :=
    if negb (PyStr.any PyStr.isdigit enhanced)
    then let '(n, tape) := randint 10 99 tape in (enhanced ++ PyStr.of_nat n, tape)
    else (enhanced, tape) in
  if (String.length enhanced <? 10)%nat then
    let additions := ["Secure"; "Strong"; "Safe"] in
    let '(addition, tape) := choice additions tape in
    mret (addition ++ enhanced, tape)
  else mret (enhanced, tape).

Definition _generate_pattern_based_password (tape : list nat) : string * list nat :=
  let words := ["Sunset"; "Ocean"; "Mountain"; "River"; "Forest"; "Garden"; "Bridge"] in
  let actions := ["Run"; "Jump"; "Fly"; "Code"; "Build"] in
  let '(word1, tape) := choice words tape in
  let '(word2, tape) := choice actions tape in
  let '(symbol, tape) := choice ["#"; "&"; "@"] tape in
  let '(year, tape) := randint 2020 2025 tape in
  (word1 ++ "-" ++ word2 ++ symbol ++ PyStr.of_nat year ++ "!", tape).

(** [_generate_passphrase_style]; no method calls it. *)
Definition _generate_passphrase_style (tape : list nat) : string * list nat :=
  let adjectives := ["Quick"; "Bright"; "Silent"; "Smooth"] in
  let nouns := ["Fox"; "Wolf"; "Bear"; "Hawk"] in
  let verbs := ["Jumps"; "Runs"; "Flies"; "Codes"] in
  let '(adj, tape) := choice adjectives tape in
  let '(noun, tape) := choice nouns tape in
  let '(verb, tape) := choice verbs tape in
  let '(num, tape) := randint 42 99 tape in
  (adj ++ noun ++ verb ++ PyStr.of_nat num ++ "!", tape).

(** One suggestion: the dict with keys password, explanation, mnemonic. *)
Record Suggestion : Type := {
  sg_password : string;
  sg_explanation : string;
  sg_mnemonic : string
}.

(** [l[:count]] *)
Definition slice_to {A : Type} (l : list A) (count : Z) : list A :=
  if (0 <=? count)%Z then firstn (Z.to_nat count) l
  else firstn (Z.to_nat (Z.of_nat (List.length l) + count)) l.

Definition suggest_alternatives (rt : Runtime) (self : PasswordIntelligence) (now : string)
    (tape : list nat) (password hint : string) (count : Z)
    : outcome (list Suggestion * PasswordIntelligence * list nat) :=
  let suggestions : list Suggestion := [] in
  '(score, analysis, self) ← of_result (score_password rt self now password hint);
  '(suggestions, tape) ←
    (if (4 <=? PyStr.len password)%nat then
       '(enhanced, tape) ← _enhance_existing_password tape password;
       mret ((suggestions ++
               [ {| sg_password := enhanced;
                    sg_explanation := "Enhanced your password with better security";
                    sg_mnemonic := "Based on your original with added strength" |} ])%list,
             tape)
     else mret (suggestions, tape));
  let '(suggestions, tape) :=
    if negb (String.eqb hint "") then
      let '(memorable, tape) := generate_memorable_password tape hint 14 "balanced" in
      let mnemonic := "Think of your favorite " ++ PyStr.lower hint ++ " and a recent year!" in
      let explanation := "Based on hint '" ++ hint ++ "' with strong security" in
      ((suggestions ++
          [ {| sg_password := memorable;
               sg_explanation := explanation;
               sg_mnemonic := mnemonic |} ])%list,
       tape)
    else (suggestions, tape) in
  let '(pattern_based, tape) := _generate_pattern_based_password tape in
  let suggestions :=
    (suggestions ++
       [ {| sg_password := pattern_based;
            sg_explanation := "Human-friendly pattern, easy to remember";
            sg_mnemonic := "Word-Word#Year! structure" |} ])%list in
  mret (slice_to suggestions count, self, tape).

(** ** Notions used in the further properties *)

(** The character map that [_reverse_leet_speak] applies to each character:
    the substitutes of [LEET_SUBSTITUTIONS] in dict order. *)
Definition deleet_char (c : ascii) : ascii :=
  fold_left
    (fun result '(char, substitutions) =>
       fold_left (fun result sub => if Ascii.eqb result sub then char else result)
         substitutions result)
    LEET_SUBSTITUTIONS c.

(** A character that some key of [LEET_SUBSTITUTIONS] lists as substitute. *)
Definition is_leet (c : ascii) : bool :=
  existsb (fun '(_, substitutions) => existsb (Ascii.eqb c) substitutions) LEET_SUBSTITUTIONS.

Definition is_hex (c : ascii) : bool := PyStr.isdigit c || PyStr.mem c "abcdef".

(** A table of texts that [give_feedback] can use. *)
Definition usable_table (t : gmap string string) : Prop :=
  (exists template, lookup_key t "strength" = Ok template
     /\ forall strength score, exists line,
          format template [("strength", strength); ("score", score)] = Ok line)
  /\ (exists template, lookup_key t "strengths" = Ok template
        /\ forall points, exists line, format template [("points", points)] = Ok line)
  /\ (exists text, lookup_key t "improve" = Ok text)
  /\ (exists text, lookup_key t "tip" = Ok text).

(** Every string that [_generate_pattern_based_password] can return. *)
Definition pattern_based_candidates : list string :=
  flat_map (fun word1 =>
    flat_map (fun word2 =>
      flat_map (fun symbol =>
        List.map (fun year => word1 ++ "-" ++ word2 ++ symbol ++ PyStr.of_nat year ++ "!")
          (seq 2020 6))
        ["#"; "&"; "@"])
      ["Run"; "Jump"; "Fly"; "Code"; "Build"])
    ["Sunset"; "Ocean"; "Mountain"; "River"; "Forest"; "Garden"; "Bridge"].

(** All four character classes, 15 to 20 characters, and a [year_pattern]
    finding of [detect_patterns]. *)
Definition pattern_based_ok (p : string) : bool :=
  (variety_count p =? 4)%nat
  && (15 <=? String.length p)%nat && (String.length p <=? 20)%nat
  && match detect_patterns p with
     | Ok patterns => has_type "year_pattern" patterns
     | Raise _ => false
     end.

(** * Proofs *)

(** ** The result monad and the arithmetic *)

Lemma bind_Ok {A B : Type} (a : A) (f : A -> result B) : (Ok a ≫= f) = f a.
Proof. reflexivity. Qed.

Lemma truediv_nonzero (a b : nat) :
  b <> 0%nat -> truediv a b = Ok (inject_Z (Z.of_nat a) / inject_Z (Z.of_nat b))%Q.
Proof.
  intros Hb. unfold truediv. destruct (Nat.eqb_spec b 0); [contradiction | reflexivity].
Qed.

Lemma fdiv_nonzero (a b : Q) : ~ (b == 0)%Q -> fdiv a b = Ok (a / b)%Q.
Proof.
  intros Hb. unfold fdiv. destruct (Qeq_bool b 0) eqn:E; [| reflexivity].
  apply Qeq_bool_iff in E. contradiction.
Qed.

Lemma Qltb_true (a b : Q) : Qltb a b = true <-> (a < b)%Q.
Proof.
  unfold Qltb. rewrite negb_true_iff. split.
  - intros E. apply Qnot_le_lt. intros Hle. apply Qle_bool_iff in Hle. congruence.
  - intros Hlt. destruct (Qle_bool b a) eqn:E; [| reflexivity].
    apply Qle_bool_iff in E. exfalso. eapply Qlt_not_le; eauto.
Qed.

Lemma Qltb_false (a b : Q) : Qltb a b = false <-> (b <= a)%Q.
Proof.
  unfold Qltb. rewrite negb_false_iff. apply Qle_bool_iff.
Qed.

Lemma py_min_cases (a b : Q) :
  (py_min a b = b /\ (b < a)%Q) \/ (py_min a b = a /\ (a <= b)%Q).
Proof.
  unfold py_min. destruct (Qltb b a) eqn:E.
  - left. split; [reflexivity | now apply Qltb_true].
  - right. split; [reflexivity | now apply Qltb_false].
Qed.

Lemma py_max_cases (a b : Q) :
  (py_max a b = b /\ (a < b)%Q) \/ (py_max a b = a /\ (b <= a)%Q).
Proof.
  unfold py_max. destruct (Qltb a b) eqn:E.
  - left. split; [reflexivity | now apply Qltb_true].
  - right. split; [reflexivity | now apply Qltb_false].
Qed.

Lemma py_min_le_l (a b : Q) : (py_min a b <= a)%Q.
Proof. destruct (py_min_cases a b) as [[-> H] | [-> H]]; lra. Qed.

Lemma py_min_le_r (a b : Q) : (py_min a b <= b)%Q.
Proof. destruct (py_min_cases a b) as [[-> H] | [-> H]]; lra. Qed.

(** The clamp of line 386. *)
Lemma clamp_bounds (x : Q) : (0 <= py_max 0 (py_min 100 x) <= 100)%Q.
Proof.
  destruct (py_max_cases 0 (py_min 100 x)) as [[-> H] | [-> H]].
  - split; [lra | apply py_min_le_l].
  - lra.
Qed.

Lemma clamp_le (x y : Q) : (x <= y)%Q -> (0 <= y)%Q -> (py_max 0 (py_min 100 x) <= y)%Q.
Proof.
  intros Hxy Hy.
  destruct (py_max_cases 0 (py_min 100 x)) as [[-> H] | [-> H]]; [| exact Hy].
  pose proof (py_min_le_r 100 x). lra.
Qed.

Lemma py_int_bounds (x : Q) (n : Z) :
  (0 <= n)%Z -> (0 <= x <= inject_Z n)%Q -> (0 <= py_int x <= n)%Z.
Proof.
  intros Hn [H0 Hn']. unfold py_int. destruct x as [p q].
  unfold Qle in *. simpl in *.
  assert (Hp : (0 <= p)%Z) by lia.
  split.
  - apply Z.quot_pos; lia.
  - rewrite Z.quot_div_nonneg by lia.
    apply Z.div_le_upper_bound; lia.
Qed.

Lemma py_int_lt (x : Q) (n : Z) :
  (0 <= x)%Q -> (x < inject_Z n)%Q -> (py_int x < n)%Z.
Proof.
  intros H0 Hn. unfold py_int. destruct x as [p q].
  unfold Qle, Qlt in *. simpl in *.
  rewrite Z.quot_div_nonneg by lia.
  apply Z.div_lt_upper_bound; lia.
Qed.

(** The blend of line 394 stays inside 0-100. *)
Lemma blend_bounds (final_score : Q) (z : Z) :
  (0 <= final_score <= 100)%Q -> (0 <= z <= 4)%Z ->
  (0 <= final_score * 0.7 + inject_Z z / 4.0 * 100 * 0.3 <= 100)%Q.
Proof.
  intros [Hf0 Hf1] [Hz0 Hz1].
  assert (H0 : (inject_Z 0 <= inject_Z z)%Q) by (rewrite <- Zle_Qle; exact Hz0).
  assert (H4 : (inject_Z z <= inject_Z 4)%Q) by (rewrite <- Zle_Qle; exact Hz1).
  change (inject_Z 0) with 0%Q in H0. change (inject_Z 4) with 4%Q in H4.
  assert (Hd : (inject_Z z / 4.0 == inject_Z z * (1 # 4))%Q) by field.
  rewrite Hd. lra.
Qed.

(** ** Totality on non-empty candidates *)

Lemma nonempty_length (s : string) : s <> "" -> String.length s <> 0%nat.
Proof. destruct s; [congruence | discriminate]. Qed.

Lemma eqb_empty_false (s : string) : s <> "" -> String.eqb s "" = false.
Proof. intros H. now apply String.eqb_neq. Qed.

Lemma low_vowels_findings_total (password password_lower : string) :
  exists l, low_vowels_findings password password_lower = Ok l.
Proof.
  unfold low_vowels_findings.
  destruct (Nat.leb_spec 8 (String.length password)); [| eexists; reflexivity].
  rewrite truediv_nonzero by lia. rewrite bind_Ok. eexists; reflexivity.
Qed.

Lemma excessive_symbols_findings_total (password : string) :
  password <> "" -> exists l, excessive_symbols_findings password = Ok l.
Proof.
  intros H. unfold excessive_symbols_findings.
  rewrite truediv_nonzero by now apply nonempty_length.
  rewrite bind_Ok. eexists; reflexivity.
Qed.

Lemma detect_patterns_total (password : string) :
  password <> "" -> exists patterns, detect_patterns password = Ok patterns.
Proof.
  intros H. unfold detect_patterns.
  destruct (low_vowels_findings_total password (PyStr.lower password)) as [low ->].
  destruct (excessive_symbols_findings_total password H) as [exc ->].
  rewrite !bind_Ok. eexists; reflexivity.
Qed.

Lemma estimate_pronounceability_total (password : string) :
  password <> "" ->
  exists p, estimate_pronounceability password = Ok p /\ (0 <= p <= 1)%Q.
Proof.
  intros H. unfold estimate_pronounceability.
  rewrite truediv_nonzero by discriminate. rewrite bind_Ok.
  pose proof (nonempty_length _ H) as Hlen.
  assert (Hpos : (0 < inject_Z (Z.of_nat (String.length password)) / inject_Z (Z.of_nat 4))%Q).
  { apply Qlt_shift_div_l; [reflexivity |].
    rewrite Qmult_0_l. change 0%Q with (inject_Z 0). rewrite <- Zlt_Qlt. lia. }
  rewrite fdiv_nonzero by lra. rewrite bind_Ok.
  eexists; split; [reflexivity |].
  set (r := (inject_Z (Z.of_nat (syllables false (PyStr.lower password)))
             / (inject_Z (Z.of_nat (String.length password)) / inject_Z (Z.of_nat 4)))%Q).
  assert (Hr : (0 <= r)%Q).
  { apply Qle_shift_div_l; [exact Hpos |].
    rewrite Qmult_0_l. change 0%Q with (inject_Z 0). rewrite <- Zle_Qle. lia. }
  clearbody r. clear Hpos.
  destruct (py_min_cases 1.0 r) as [[-> Hlt] | [-> Hle]]; lra.
Qed.

(** ** The shape of a scoring call *)

Lemma zxcvbn_blend_bounds rt password final_score analysis :
  oracle_normalized rt -> (0 <= final_score <= 100)%Q ->
  (0 <= fst (zxcvbn_blend rt password final_score analysis) <= 100)%Q.
Proof.
  intros Hrt Hf. unfold zxcvbn_blend.
  destruct (zxcvbn rt) as [estimator |] eqn:Ez; [| exact Hf].
  destruct (estimator password) as [r |] eqn:Er; [| exact Hf].
  cbn [fst].
  pose proof (blend_bounds final_score (zx_score r) Hf (Hrt _ _ _ Ez Er)) as Hb.
  assert (Hi : (0 <= py_int (final_score * 0.7 + inject_Z (zx_score r) / 4.0 * 100 * 0.3)
                 <= 100)%Z) by (apply py_int_bounds; [lia | exact Hb]).
  destruct Hi as [Hi0 Hi1].
  rewrite Zle_Qle in Hi0, Hi1.
  split; assumption.
Qed.

Lemma zxcvbn_blend_lookup rt password final_score (analysis : gmap string Value) key :
  key <> "zxcvbn_feedback" ->
  snd (zxcvbn_blend rt password final_score analysis) !! key = analysis !! key.
Proof.
  intros Hk. unfold zxcvbn_blend.
  destruct (zxcvbn rt) as [estimator |]; [| reflexivity].
  destruct (estimator password) as [r |]; [| reflexivity].
  cbn [snd]. apply lookup_insert_ne. congruence.
Qed.

Lemma score_password_empty rt self now hint :
  score_password rt self now "" hint
  = Ok (0%Z, {[ "error" := VStr "Empty password" ]}, self).
Proof. reflexivity. Qed.

(** A call on a non-empty candidate returns: the components, the local
    score, the blend, and the ledger after the call. *)
Lemma score_password_nonempty rt self now password hint :
  password <> "" ->
  exists pronounceability patterns analysis,
    estimate_pronounceability password = Ok pronounceability
    /\ detect_patterns password = Ok patterns
    /\ analysis !! "variety_score" = Some (VNum (variety_score password))
    /\ analysis !! "reuse_penalty"
        = Some (VNum (snd (check_password_reuse self password) * 10))
    /\ analysis !! "pattern_penalties" = Some (VPatterns patterns)
    /\ let blend :=
          zxcvbn_blend rt password
            (local_final_score (length_score rt password) (variety_score password)
               (uniqueness_score rt password) (pronounceability * 10)
               (hint_relevance_score password hint) (bonus_points password)
               (Qsum (List.map (fun pattern => penalty pattern * 10)%Q patterns))
               (snd (check_common_passwords password) * 30)
               (snd (check_confusing_chars password) * 10)
               (snd (check_password_reuse self password) * 10))
            analysis in
        score_password rt self now password hint
        = Ok (py_int (fst blend), snd blend, add_to_history self now password (fst blend)).
Proof.
  intros Hne. unfold score_password.
  rewrite (eqb_empty_false _ Hne).
  destruct (estimate_pronounceability_total password Hne) as (pron & Epron & _).
  destruct (detect_patterns_total password Hne) as (patterns & Epat).
  rewrite Epron, bind_Ok, Epat, bind_Ok.
  destruct (check_common_passwords password) as [is_common blacklist].
  destruct (check_confusing_chars password) as [is_conf confusing].
  destruct (check_password_reuse self password) as [is_reused reuse].
  cbn [snd].
  match goal with
  | |- context [zxcvbn_blend rt password ?f ?a] => exists pron, patterns, a
  end.
  split; [reflexivity |]. split; [reflexivity |].
  split; [| split; [| split]]; cycle 3.
  - cbv zeta.
    match goal with
    | |- context [zxcvbn_blend rt password ?f ?a] =>
        destruct (zxcvbn_blend rt password f a) as [final analysis']
    end.
    reflexivity.
  - rewrite !lookup_insert_ne by discriminate. apply lookup_insert_eq.
  - rewrite !lookup_insert_ne by discriminate. apply lookup_insert_eq.
  - rewrite !lookup_insert_ne by discriminate. apply lookup_insert_eq.
Qed.

Lemma local_final_score_bounds a b c d e f g h i j :
  (0 <= local_final_score a b c d e f g h i j <= 100)%Q.
Proof. unfold local_final_score. apply clamp_bounds. Qed.

(** ** The ledger *)

Lemma add_to_history_history self now password score :
  password_history (add_to_history self now password score)
  = let history := (password_history self ++ [(Sha256.hexdigest password, score, now)])%list in
    if (50 <? List.length history)%nat then List.tl history else history.
Proof. reflexivity. Qed.

Lemma add_to_history_bounded self now password score :
  (List.length (password_history self) <= 50)%nat ->
  (List.length (password_history (add_to_history self now password score)) <= 50)%nat.
Proof.
  intros H. rewrite add_to_history_history. cbv zeta.
  destruct (Nat.ltb_spec 50
              (List.length (password_history self ++ [(Sha256.hexdigest password, score, now)])))
    as [Hlt | Hle]; [| exact Hle].
  rewrite length_tl, length_app. simpl. lia.
Qed.

(** C1: [detect_patterns] is not total: on the empty candidate the
    division by [len(password)] of the excessive-symbols check raises
    ZeroDivisionError, and so does the division of
    [estimate_pronounceability]. *)
Theorem detect_patterns_empty_raises :
  detect_patterns "" = Raise ZeroDivisionError
  /\ estimate_pronounceability "" = Raise ZeroDivisionError.
Proof. split; reflexivity. Qed.

(** C2: for every candidate and hint, [score_password] returns, and its
    final score lies between 0 and 100, on the local path and on the path
    that blends the normalized answer of zxcvbn at 70/30. *)
Theorem score_password_bounds rt self now password hint :
  oracle_normalized rt ->
  exists score analysis self',
    score_password rt self now password hint = Ok (score, analysis, self')
    /\ (0 <= score <= 100)%Z.
Proof.
  intros Hrt. destruct (String.eqb_spec password "") as [-> | Hne].
  - rewrite score_password_empty. eexists _, _, _. split; [reflexivity | lia].
  - destruct (score_password_nonempty rt self now password hint Hne)
      as (pron & patterns & analysis & _ & _ & _ & _ & _ & Hs).
    cbv zeta in Hs. rewrite Hs. eexists _, _, _. split; [reflexivity |].
    apply py_int_bounds; [lia |].
    apply zxcvbn_blend_bounds; [exact Hrt | apply local_final_score_bounds].
Qed.

Lemma runtime_with_zxcvbn_normalized : oracle_normalized runtime_with_zxcvbn.
Proof.
  intros estimator password r He Hr. injection He as <-. injection Hr as <-.
  split; discriminate.
Qed.

Lemma score_password_bounds_witness :
  oracle_normalized runtime_with_zxcvbn
  /\ exists score analysis self',
       score_password runtime_with_zxcvbn (__init__ "balanced" "en")
         "2025-08-16 10:00:00" "Tr@mpoline$92!" "sunset"
       = Ok (score, analysis, self')
       /\ (0 <= score <= 100)%Z.
Proof.
  split; [exact runtime_with_zxcvbn_normalized |].
  exact (score_password_bounds runtime_with_zxcvbn _ _ _ _ runtime_with_zxcvbn_normalized).
Defined.

(** What a call does to the ledger, and the score it returns. *)
Lemma score_password_history rt self now password hint :
  exists score analysis self' final_score,
    score_password rt self now password hint = Ok (score, analysis, self')
    /\ score = (if String.eqb password "" then 0%Z else py_int final_score)
    /\ password_history self'
        = if String.eqb password "" then password_history self
          else pushed (password_history self) (Sha256.hexdigest password, final_score, now).
Proof.
  destruct (String.eqb_spec password "") as [-> | Hne].
  - rewrite score_password_empty. eexists _, _, _, 0%Q.
    split; [reflexivity |]. split; reflexivity.
  - destruct (score_password_nonempty rt self now password hint Hne)
      as (pron & patterns & analysis & _ & _ & _ & _ & _ & Hs).
    cbv zeta in Hs. rewrite Hs. eexists _, _, _, _.
    split; [reflexivity |]. split; [reflexivity |].
    apply add_to_history_history.
Qed.

(** C3, as the code has it: a call on a non-empty candidate appends exactly
    one entry (digest, score, timestamp) to the ledger, whatever it scores,
    and drops the oldest entry when that makes 51; a call on the empty
    candidate returns score 0 and leaves the ledger as it was. *)
Theorem score_password_ledger rt self now password hint :
  exists score analysis self' final_score,
    score_password rt self now password hint = Ok (score, analysis, self')
    /\ score = (if String.eqb password "" then 0%Z else py_int final_score)
    /\ password_history self'
        = if String.eqb password "" then password_history self
          else
            let history :=
              (password_history self ++ [(Sha256.hexdigest password, final_score, now)])%list in
            if (50 <? List.length history)%nat then List.tl history else history.
Proof.
  destruct (String.eqb_spec password "") as [-> | Hne].
  - rewrite score_password_empty. exists 0%Z. eexists _, self, 0%Q.
    split; [reflexivity |]. split; reflexivity.
  - destruct (score_password_nonempty rt self now password hint Hne)
      as (pron & patterns & analysis & _ & _ & _ & _ & _ & Hs).
    cbv zeta in Hs. rewrite Hs.
    match goal with
    | |- context [add_to_history self now password ?f] =>
        exists (py_int f); eexists _, _, f
    end.
    split; [reflexivity |]. split; [reflexivity |].
    apply add_to_history_history.
Qed.

(** C3, the claim as stated fails on the empty candidate: the call returns
    before [add_to_history] and the ledger stays empty. *)
Lemma score_password_empty_no_entry :
  score_password reference_runtime (__init__ "balanced" "en") "2025-08-16 10:00:00" "" ""
  = Ok (0%Z, {[ "error" := VStr "Empty password" ]}, __init__ "balanced" "en")
  /\ List.length (password_history (__init__ "balanced" "en")) = 0%nat.
Proof. split; reflexivity. Qed.

(** C4: on the empty candidate [score_password] returns score 0 and a
    breakdown that holds the error marker and nothing else: no component
    score is present, and [give_feedback], which reads the marker and then
    the components, raises KeyError on it. *)
Theorem score_password_empty_breakdown rt self now hint :
  exists analysis,
    score_password rt self now "" hint = Ok (0%Z, analysis, self)
    /\ analysis !! "error" = Some (VStr "Empty password")
    /\ Forall (fun key => analysis !! key = None) COMPONENT_KEYS
    /\ give_feedback (__init__ "balanced" "en") 0 analysis
       = Raise (KeyError "length_score").
Proof.
  rewrite score_password_empty. eexists. split; [reflexivity |].
  split; [apply lookup_singleton_eq |].
  split; [| vm_compute; reflexivity].
  repeat constructor; apply lookup_singleton_ne; discriminate.
Qed.

(** One record on a ledger within capacity. *)
Lemma add_to_history_within_capacity self now password score :
  (List.length (password_history self) <= 50)%nat ->
  let entry := (Sha256.hexdigest password, score, now) in
  let after := password_history (add_to_history self now password score) in
  (List.length after <= 50)%nat
  /\ last after = Some entry
  /\ after = (if (List.length (password_history self) <? 50)%nat
              then password_history self ++ [entry]
              else List.tl (password_history self) ++ [entry])%list.
Proof.
  intros H entry after.
  split; [apply add_to_history_bounded; exact H |].
  subst after. rewrite add_to_history_history. cbv zeta. fold entry.
  rewrite length_app. cbn [List.length].
  destruct (Nat.ltb_spec 50 (List.length (password_history self) + 1)) as [Hlt | Hle].
  - destruct (Nat.ltb_spec (List.length (password_history self)) 50) as [Hlt' | _]; [lia |].
    destruct (password_history self) as [| e0 h] eqn:Eh; [cbn in Hlt; lia |].
    cbn [List.tl List.app].
    split; [apply last_snoc | reflexivity].
  - destruct (Nat.ltb_spec (List.length (password_history self)) 50) as [_ | Hge]; [| lia].
    split; [apply last_snoc | reflexivity].
Qed.

(** A ledger filled by [add_to_history] from the empty one of [__init__]
    stays within capacity. *)
Lemma records_bounded records : forall self,
  (List.length (password_history self) <= 50)%nat ->
  (List.length (password_history (record_all self records)) <= 50)%nat.
Proof.
  induction records as [| [[now password] score] records IH]; intros self H.
  - exact H.
  - cbn [record_all]. apply IH. apply add_to_history_bounded. exact H.
Qed.

(** C8: the ledger is a FIFO of capacity 50: on a ledger built from the
    empty one by any records, [add_to_history] puts the new entry last,
    whether or not the candidate is there already, leaves at most 50
    entries, drops nothing below capacity, and at capacity drops exactly the
    oldest entry. *)
Theorem add_to_history_fifo mode lang records now password score :
  let self := record_all (__init__ mode lang) records in
  let entry := (Sha256.hexdigest password, score, now) in
  let after := password_history (add_to_history self now password score) in
  (List.length after <= 50)%nat
  /\ last after = Some entry
  /\ after = (if (List.length (password_history self) <? 50)%nat
              then password_history self ++ [entry]
              else List.tl (password_history self) ++ [entry])%list.
Proof.
  cbv zeta. apply add_to_history_within_capacity.
  apply records_bounded. cbn. lia.
Qed.

(** ** The similarity matcher on the two spellings of "password" *)

(** C7: "Passw0rd!" and "P@ssword" are both flagged as similar to the
    known-weak entry "password": neither is in the corpus, both normalize to
    "password", and [check_common_passwords] answers (True, 0.7). *)
Theorem check_common_passwords_flags_password_variants :
  check_common_passwords "Passw0rd!" = (true, 0.7%Q)
  /\ check_common_passwords "P@ssword" = (true, 0.7%Q)
  /\ _reverse_leet_speak
       (PyStr.rstrip_dollar (fun c => is_symbol c || PyStr.isdigit c)
          (PyStr.lstrip is_symbol (PyStr.lower "Passw0rd!"))) = "password"
  /\ _reverse_leet_speak (PyStr.lower "P@ssword") = "password"
  /\ List.hd "" COMMON_PASSWORDS = "password"
  /\ _is_similar_password (PyStr.lower "Passw0rd!") "password" = true
  /\ _is_similar_password (PyStr.lower "P@ssword") "password" = true.
Proof. repeat split; vm_compute; reflexivity. Qed.

(** ** Variety *)

Lemma variety_count_le_4 (password : string) : variety_count password <= 4.
Proof.
  unfold variety_count.
  destruct (PyStr.any PyStr.islower password), (PyStr.any PyStr.isupper password),
    (PyStr.any PyStr.isdigit password), (PyStr.any is_symbol password); cbn; lia.
Qed.

(** Below the cap the variety score is 6.25 per class. *)
Lemma variety_score_linear (password : string) :
  (variety_score password == inject_Z (Z.of_nat (variety_count password)) * 6.25)%Q.
Proof.
  unfold variety_score. pose proof (variety_count_le_4 password) as H4.
  set (n := variety_count password) in *. clearbody n.
  assert (Hn : (inject_Z (Z.of_nat n) <= inject_Z 4)%Q) by (rewrite <- Zle_Qle; lia).
  change (inject_Z 4) with 4%Q in Hn.
  destruct (py_min_cases 25 (inject_Z (Z.of_nat n) * 6.25)) as [[-> _] | [-> Hle]]; lra.
Qed.

Lemma breakdown_variety rt self now password hint :
  password <> "" ->
  breakdown_field rt self now password hint "variety_score"
  = Some (VNum (variety_score password)).
Proof.
  intros Hne. unfold breakdown_field.
  destruct (score_password_nonempty rt self now password hint Hne)
    as (pron & patterns & analysis & _ & _ & Hv & _ & _ & Hs).
  cbv zeta in Hs. rewrite Hs.
  rewrite zxcvbn_blend_lookup by discriminate. exact Hv.
Qed.

(** The model's component is the instance of the component over an
    alphabet: bytes, with the ASCII tests. *)
Lemma any_chars (p : ascii -> bool) (s : string) :
  PyStr.any p s = existsb p (PyStr.chars s).
Proof. induction s as [| c s IH]; [reflexivity |]. cbn. rewrite IH. reflexivity. Qed.

Lemma variety_count_chars (password : string) :
  variety_count password
  = variety_count_over PyStr.islower PyStr.isupper PyStr.isdigit is_symbol
      (PyStr.chars password).
Proof. unfold variety_count, variety_count_over. rewrite !any_chars. reflexivity. Qed.

Lemma variety_score_chars (password : string) :
  variety_score password
  = variety_score_over PyStr.islower PyStr.isupper PyStr.isdigit is_symbol
      (PyStr.chars password).
Proof. unfold variety_score, variety_score_over. rewrite variety_count_chars. reflexivity. Qed.

Section AlphabetFacts.

Context {C : Type} (lower upper digit symbol : C -> bool).

Let count := variety_count_over lower upper digit symbol.
Let score := variety_score_over lower upper digit symbol.

Lemma existsb_snoc (p : C -> bool) (l : list C) (c : C) :
  existsb p (l ++ [c])%list = existsb p l || p c.
Proof. rewrite existsb_app. cbn [existsb]. rewrite orb_false_r. reflexivity. Qed.

Lemma variety_count_over_le_4 (password : list C) : count password <= 4.
Proof.
  unfold count, variety_count_over.
  destruct (existsb lower password), (existsb upper password),
    (existsb digit password), (existsb symbol password); cbn; lia.
Qed.

(** A character of a missing class adds at least one class. *)
Lemma variety_count_over_gain (password : list C) (c : C) :
  brings_missing_class_over lower upper digit symbol password c = true ->
  S (count password) <= count (password ++ [c])%list.
Proof.
  unfold count, brings_missing_class_over, variety_count_over. intros H.
  rewrite !existsb_snoc.
  destruct (existsb lower password), (existsb upper password),
    (existsb digit password), (existsb symbol password),
    (lower c), (upper c), (digit c), (symbol c);
    cbn in *; try discriminate; lia.
Qed.

(** Below the cap the score is 6.25 per class. *)
Lemma variety_score_over_linear (password : list C) :
  (score password == inject_Z (Z.of_nat (count password)) * 6.25)%Q.
Proof.
  unfold score, variety_score_over. pose proof (variety_count_over_le_4 password) as H4.
  fold count. set (n := count password) in *. clearbody n.
  assert (Hn : (inject_Z (Z.of_nat n) <= inject_Z 4)%Q) by (rewrite <- Zle_Qle; lia).
  change (inject_Z 4) with 4%Q in Hn.
  destruct (py_min_cases 25 (inject_Z (Z.of_nat n) * 6.25)) as [[-> _] | [-> Hle]]; lra.
Qed.

Lemma variety_score_over_gain (password : list C) (c : C) :
  brings_missing_class_over lower upper digit symbol password c = true ->
  (score password + 6.25 <= score (password ++ [c])%list)%Q.
Proof.
  intros H. apply variety_count_over_gain in H.
  rewrite !variety_score_over_linear.
  assert (Hn : (inject_Z (Z.of_nat (S (count password)))
                <= inject_Z (Z.of_nat (count (password ++ [c])%list)))%Q)
    by (rewrite <- Zle_Qle; lia).
  rewrite Nat2Z.inj_succ in Hn. unfold Z.succ in Hn. rewrite inject_Z_plus in Hn.
  change (inject_Z 1) with 1%Q in Hn.
  set (a := inject_Z (Z.of_nat (count password))) in *.
  set (b := inject_Z (Z.of_nat (count (password ++ [c])%list))) in *.
  clearbody a b. lra.
Qed.

End AlphabetFacts.

(** C9: appending a character of a class the candidate does not have yet
    never lowers the variety component; it raises it by 6.25 or more.  The
    statement is over any alphabet and any four tests on a character, so it
    holds of the code points of a [str] with Python's own tests.  On an
    ASCII candidate the component is the entry "variety_score" of the
    breakdown that [score_password] returns. *)
Theorem variety_monotone {C : Type} (lower upper digit symbol : C -> bool)
    (password : list C) (c : C) :
  (variety_count_over lower upper digit symbol password < 4)%nat ->
  brings_missing_class_over lower upper digit symbol password c = true ->
  (variety_score_over lower upper digit symbol password
   <= variety_score_over lower upper digit symbol (password ++ [c])%list)%Q
  /\ (variety_score_over lower upper digit symbol password + 6.25
      <= variety_score_over lower upper digit symbol (password ++ [c])%list)%Q
  /\ forall rt self now hint candidate,
       candidate <> "" -> PyStr.isascii candidate = true ->
       breakdown_field rt self now candidate hint "variety_score"
       = Some (VNum (variety_score_over PyStr.islower PyStr.isupper PyStr.isdigit is_symbol
                       (PyStr.chars candidate))).
Proof.
  intros _ Hc.
  pose proof (variety_score_over_gain lower upper digit symbol password c Hc)
    as Hgain.
  split; [lra |]. split; [exact Hgain |].
  intros rt self now hint candidate Hne _.
  rewrite <- variety_score_chars. apply breakdown_variety, Hne.
Qed.

Lemma variety_monotone_witness :
  (variety_count_over PyStr.islower PyStr.isupper PyStr.isdigit is_symbol
     (PyStr.chars "sunset2024") < 4)%nat
  /\ brings_missing_class_over PyStr.islower PyStr.isupper PyStr.isdigit is_symbol
       (PyStr.chars "sunset2024") "!"%char = true
  /\ (variety_score_over PyStr.islower PyStr.isupper PyStr.isdigit is_symbol
        (PyStr.chars "sunset2024")
      <= variety_score_over PyStr.islower PyStr.isupper PyStr.isdigit is_symbol
           (PyStr.chars "sunset2024" ++ ["!"%char])%list)%Q.
Proof.
  assert (H1 : (variety_count_over PyStr.islower PyStr.isupper PyStr.isdigit is_symbol
                  (PyStr.chars "sunset2024") < 4)%nat) by (vm_compute; lia).
  assert (H2 : brings_missing_class_over PyStr.islower PyStr.isupper PyStr.isdigit is_symbol
                 (PyStr.chars "sunset2024") "!"%char = true) by reflexivity.
  split; [exact H1 |]. split; [exact H2 |].
  exact (proj1 (variety_monotone PyStr.islower PyStr.isupper PyStr.isdigit is_symbol
                  (PyStr.chars "sunset2024") "!"%char H1 H2)).
Defined.

(** ** The candidate "aaaaaaaa" *)

Lemma length_score_le_50 rt password : (length_score rt password <= 50)%Q.
Proof.
  unfold length_score.
  destruct (Z.ltb_spec (Z.of_nat (String.length password)) 8) as [Hlt | Hge];
    [| apply py_min_le_l].
  destruct (py_max_cases 0 (inject_Z (Z.of_nat (String.length password) * 5)))
    as [[-> _] | [-> _]]; [| lra].
  change 50%Q with (inject_Z 50). rewrite <- Zle_Qle. lia.
Qed.

Lemma py_int_le (x : Q) : (0 <= x)%Q -> (inject_Z (py_int x) <= x)%Q.
Proof.
  intros H0. unfold py_int. destruct x as [p q].
  unfold Qle in *. simpl in *.
  rewrite Z.quot_div_nonneg by lia.
  pose proof (Z.mul_div_le p (Zpos q) ltac:(lia)). lia.
Qed.

Lemma check_password_reuse_cases self password :
  check_password_reuse self password = (true, 0.5%Q)
  \/ check_password_reuse self password = (false, 0.0%Q).
Proof.
  unfold check_password_reuse.
  match goal with |- context [existsb ?f ?l] => destruct (existsb f l) end;
    [left | right]; reflexivity.
Qed.

(** With a local score of at most [b], the blend is at most [0.7 b + 30]. *)
Lemma zxcvbn_blend_le rt password final_score analysis (b : Q) :
  oracle_normalized rt -> (0 <= final_score <= b)%Q -> (b <= 100)%Q ->
  (0 <= fst (zxcvbn_blend rt password final_score analysis) <= b * 0.7 + 30)%Q.
Proof.
  intros Hrt [Hf0 Hfb] Hb. unfold zxcvbn_blend.
  destruct (zxcvbn rt) as [estimator |] eqn:Ez; [| cbn [fst]; lra].
  destruct (estimator password) as [r |] eqn:Er; [| cbn [fst]; lra].
  cbn [fst].
  assert (Hf : (0 <= final_score <= 100)%Q) by lra.
  pose proof (Hrt _ _ _ Ez Er) as [Hz0 Hz4].
  pose proof (blend_bounds final_score (zx_score r) Hf (conj Hz0 Hz4)) as [Hb0 _].
  pose proof (py_int_le _ Hb0) as Hle.
  assert (Hi : (0 <= py_int (final_score * 0.7 + inject_Z (zx_score r) / 4.0 * 100 * 0.3))%Z).
  { apply (py_int_bounds _ 100); [lia |].
    apply blend_bounds; [exact Hf | split; assumption]. }
  rewrite Zle_Qle in Hi. change (inject_Z 0) with 0%Q in Hi.
  assert (H4 : (inject_Z (zx_score r) <= inject_Z 4)%Q) by (rewrite <- Zle_Qle; exact Hz4).
  change (inject_Z 4) with 4%Q in H4.
  assert (Hd : (inject_Z (zx_score r) / 4.0 == inject_Z (zx_score r) * (1 # 4))%Q) by field.
  set (k := inject_Z (py_int _)) in *. clearbody k.
  rewrite Hd in Hle.
  split; [exact Hi | lra].
Qed.

(** C6, as the code has it: for "aaaaaaaa" [detect_patterns] reports the
    repeated character (and the repeated token, the palindrome and the
    alternation) but no low-vowel finding, every character being a vowel;
    [is_valid_password] answers False. *)
Theorem aaaaaaaa_findings rt self now :
  oracle_normalized rt ->
  exists patterns self',
    detect_patterns "aaaaaaaa" = Ok patterns
    /\ has_type "repeated_character" patterns = true
    /\ has_type "low_vowels" patterns = false
    /\ is_valid_password rt self now "aaaaaaaa" = Ok (false, self').
Proof.
  intros Hrt.
  destruct (score_password_nonempty rt self now "aaaaaaaa" "" ltac:(discriminate))
    as (pron & patterns & analysis & Epron & Epat & _ & _ & _ & Hs).
  cbv zeta in Hs.
  exists patterns. eexists.
  split; [exact Epat |].
  assert (Ep : detect_patterns "aaaaaaaa"
               = Ok [ {| ptype := "repeated_character";
                         description := "Character 'a' repeats 8 times";
                         penalty := 0.2 * inject_Z (8 - 2) |};
                      {| ptype := "repeated_token";
                         description := "Repeating pattern 'aa'";
                         penalty := 0.4 |};
                      {| ptype := "palindrome";
                         description := "Password is a palindrome (e.g., 'deked')";
                         penalty := 0.2 |};
                      {| ptype := "alternating_pattern";
                         description := "Alternating pattern detected";
                         penalty := 0.3 |} ]) by (vm_compute; reflexivity).
  rewrite Ep in Epat. injection Epat as <-.
  split; [reflexivity |]. split; [reflexivity |].
  unfold is_valid_password.
  change (PyStr.len "aaaaaaaa" <? 8)%nat with false. cbv iota.
  rewrite Hs, bind_Ok.
  assert (Er : estimate_pronounceability "aaaaaaaa" = Ok (4 # 8)%Q) by (vm_compute; reflexivity).
  rewrite Er in Epron. injection Epron as <-.
  match goal with
  | |- context [zxcvbn_blend rt "aaaaaaaa" ?f ?a] =>
      pose proof (zxcvbn_blend_le rt "aaaaaaaa" f a 40.25 Hrt) as Hb;
      set (blend := zxcvbn_blend rt "aaaaaaaa" f a) in *
  end.
  assert (Hlt : (py_int (fst blend) < 60)%Z).
  { destruct Hb as [Hb0 Hb1].
    - split; [apply local_final_score_bounds |].
      unfold local_final_score. apply clamp_le; [| lra].
      pose proof (length_score_le_50 rt "aaaaaaaa") as Hl.
      assert (Hv : (variety_score "aaaaaaaa" <= 6.25)%Q) by (vm_compute; discriminate).
      assert (Hu : uniqueness_score rt "aaaaaaaa" = 0%Q) by reflexivity.
      assert (Hh : hint_relevance_score "aaaaaaaa" "" = 0%Q) by reflexivity.
      assert (Hbp : bonus_points "aaaaaaaa" = 0%Q) by reflexivity.
      assert (Hc : (0 <= snd (check_common_passwords "aaaaaaaa") * 30)%Q)
        by (vm_compute; discriminate).
      assert (Hcc : (0 <= snd (check_confusing_chars "aaaaaaaa") * 10)%Q)
        by (vm_compute; discriminate).
      assert (Hp : (21 <= Qsum (List.map (fun pattern => penalty pattern * 10)
                                  [ {| ptype := "repeated_character";
                                       description := "Character 'a' repeats 8 times";
                                       penalty := 0.2 * inject_Z (8 - 2) |};
                                    {| ptype := "repeated_token";
                                       description := "Repeating pattern 'aa'";
                                       penalty := 0.4 |};
                                    {| ptype := "palindrome";
                                       description := "Password is a palindrome (e.g., 'deked')";
                                       penalty := 0.2 |};
                                    {| ptype := "alternating_pattern";
                                       description := "Alternating pattern detected";
                                       penalty := 0.3 |} ]))%Q)
        by (vm_compute; discriminate).
      assert (Hr : (0 <= snd (check_password_reuse self "aaaaaaaa") * 10)%Q)
        by (destruct (check_password_reuse_cases self "aaaaaaaa") as [-> | ->];
            vm_compute; discriminate).
      rewrite Hu, Hh, Hbp.
      set (ls := length_score rt "aaaaaaaa") in *.
      set (vs := variety_score "aaaaaaaa") in *.
      set (tp := Qsum _) in *.
      set (bl := (snd (check_common_passwords "aaaaaaaa") * 30)%Q) in *.
      set (cf := (snd (check_confusing_chars "aaaaaaaa") * 10)%Q) in *.
      set (ru := (snd (check_password_reuse self "aaaaaaaa") * 10)%Q) in *.
      clearbody ls vs tp bl cf ru. lra.
    - lra.
    - apply py_int_lt; [exact Hb0 |].
      change (inject_Z 60) with 60%Q. lra. }
  destruct (Z.leb_spec 60 (py_int (fst blend))) as [Hge | _]; [lia | reflexivity].
Qed.

Lemma aaaaaaaa_findings_witness :
  oracle_normalized runtime_with_zxcvbn
  /\ exists patterns self',
       detect_patterns "aaaaaaaa" = Ok patterns
       /\ has_type "repeated_character" patterns = true
       /\ has_type "low_vowels" patterns = false
       /\ is_valid_password runtime_with_zxcvbn (__init__ "balanced" "en")
            "2025-08-16 10:00:00" "aaaaaaaa" = Ok (false, self').
Proof.
  split; [exact runtime_with_zxcvbn_normalized |].
  exact (aaaaaaaa_findings runtime_with_zxcvbn _ _ runtime_with_zxcvbn_normalized).
Defined.

(** C6, the claim as stated fails: the findings for "aaaaaaaa" are the
    repeated character, the repeated token, the palindrome and the
    alternation; all 8 characters are vowels and no low-vowel finding is
    made. *)
Lemma aaaaaaaa_no_low_vowels_finding :
  match detect_patterns "aaaaaaaa" with
  | Ok patterns => Some (List.map ptype patterns, has_type "low_vowels" patterns)
  | Raise _ => None
  end
  = Some (["repeated_character"; "repeated_token"; "palindrome"; "alternating_pattern"], false)
  /\ PyStr.count_if is_vowel (PyStr.lower "aaaaaaaa") = 8%nat.
Proof. split; vm_compute; reflexivity. Qed.

(** ** Reuse after a validity check *)

Lemma pushed_add_to_history self now password score :
  password_history (add_to_history self now password score)
  = pushed (password_history self) (Sha256.hexdigest password, score, now).
Proof. reflexivity. Qed.

Lemma retained_mono k k' d history :
  retained k d history -> (k <= k')%nat -> retained k' d history.
Proof.
  intros (older & sc & ts & younger & E & Hlen) Hk.
  exists older, sc, ts, younger. split; [exact E | lia].
Qed.

Lemma retained_pushed_same history d score timestamp :
  retained 0 d (pushed history (d, score, timestamp)).
Proof.
  unfold pushed. cbv zeta.
  match goal with
  | |- context [(50 <? ?n)%nat] => destruct (Nat.ltb_spec 50 n) as [Hlt | Hle]
  end.
  - destruct history as [| e0 history].
    + cbn in Hlt. lia.
    + cbn [List.app List.tl]. exists history, score, timestamp, []. split; [reflexivity | cbn; lia].
  - exists history, score, timestamp, []. split; [reflexivity | cbn; lia].
Qed.

Lemma retained_pushed_other k history d entry :
  retained k d history -> (k < 49)%nat -> retained (S k) d (pushed history entry).
Proof.
  intros (older & sc & ts & younger & -> & Hlen) Hk.
  unfold pushed. cbv zeta. rewrite <- app_assoc. cbn [List.app].
  match goal with
  | |- context [(50 <? ?n)%nat] => destruct (Nat.ltb_spec 50 n) as [Hlt | Hle]
  end.
  - destruct older as [| e0 older].
    + cbn [List.app List.length] in Hlt. rewrite length_app in Hlt. cbn in Hlt. lia.
    + cbn [List.app List.tl]. exists older, sc, ts, (younger ++ [entry])%list.
      split; [reflexivity |]. rewrite length_app. cbn. lia.
  - exists older, sc, ts, (younger ++ [entry])%list.
    split; [reflexivity |]. rewrite length_app. cbn. lia.
Qed.

Lemma score_password_retained rt self now password hint k d :
  retained k d (password_history self) -> (k < 49)%nat ->
  exists score analysis self',
    score_password rt self now password hint = Ok (score, analysis, self')
    /\ retained (S k) d (password_history self').
Proof.
  intros Hr Hk.
  destruct (score_password_history rt self now password hint)
    as (score & analysis & self' & final & Hs & _ & Hh).
  exists score, analysis, self'. split; [exact Hs |]. rewrite Hh.
  destruct (String.eqb password "").
  - apply retained_mono with k; [exact Hr | lia].
  - apply (retained_pushed_other k _ d _ Hr Hk).
Qed.

Lemma score_all_retained rt calls : forall self k d,
  retained k d (password_history self) -> (k + List.length calls <= 49)%nat ->
  exists self', score_all rt self calls = Ok self'
                /\ retained (k + List.length calls) d (password_history self').
Proof.
  induction calls as [| [[now password] hint] calls IH]; intros self k d Hr Hk.
  - exists self. split; [reflexivity |]. rewrite Nat.add_0_r. exact Hr.
  - cbn [List.length] in *.
    destruct (score_password_retained rt self now password hint k d Hr ltac:(lia))
      as (score & analysis & self1 & Hs & Hr1).
    destruct (IH self1 (S k) d Hr1 ltac:(lia)) as (self2 & Hall & Hr2).
    exists self2. split.
    + cbn [score_all]. rewrite Hs, bind_Ok. exact Hall.
    + replace (k + S (List.length calls))%nat with (S k + List.length calls)%nat by lia.
      exact Hr2.
Qed.

Lemma retained_reuse self password k :
  retained k (Sha256.hexdigest password) (password_history self) ->
  check_password_reuse self password = (true, 0.5%Q).
Proof.
  intros (older & sc & ts & younger & E & _). unfold check_password_reuse.
  rewrite E, existsb_app. cbn [existsb]. rewrite String.eqb_refl.
  rewrite orb_true_r. reflexivity.
Qed.

(** C10, as the code has it: [is_valid_password] on a candidate of 8
    characters or more scores it and so records it; after at most 49 further
    scoring calls a call of [score_password] on the same candidate reports
    the reuse penalty 5.  The length is [len(password)], in code points. *)
Theorem validity_check_is_recorded rt self now0 password calls now hint :
  (8 <= PyStr.len password)%nat ->
  (List.length calls <= 49)%nat ->
  exists valid final_score self2 score analysis self3,
    is_valid_password rt self now0 password
    = Ok (valid, add_to_history self now0 password final_score)
    /\ score_all rt (add_to_history self now0 password final_score) calls = Ok self2
    /\ score_password rt self2 now password hint = Ok (score, analysis, self3)
    /\ analysis !! "reuse_penalty" = Some (VNum (0.5 * 10)).
Proof.
  intros Hlen Hcalls.
  assert (Hne : password <> "") by (intros ->; cbn in Hlen; lia).
  destruct (score_password_nonempty rt self now0 password "" Hne)
    as (pron & patterns & analysis & _ & _ & _ & _ & _ & Hs).
  cbv zeta in Hs.
  match type of Hs with
  | _ = Ok (_, _, add_to_history _ _ _ ?f) => set (final := f) in *
  end.
  assert (Hr : retained 0 (Sha256.hexdigest password)
                 (password_history (add_to_history self now0 password final))).
  { rewrite pushed_add_to_history. apply retained_pushed_same. }
  destruct (score_all_retained rt calls _ 0%nat _ Hr ltac:(lia)) as (self2 & Hall & Hr2).
  destruct (score_password_nonempty rt self2 now password hint Hne)
    as (pron2 & patterns2 & analysis2 & _ & _ & _ & Hreuse & _ & Hs2).
  cbv zeta in Hs2.
  eexists _, final, self2, _, _, _.
  split.
  { unfold is_valid_password.
    destruct (Nat.ltb_spec (PyStr.len password) 8) as [Hlt | _]; [lia |].
    rewrite Hs, bind_Ok. reflexivity. }
  split; [exact Hall |]. split; [exact Hs2 |].
  rewrite zxcvbn_blend_lookup by discriminate.
  rewrite Hreuse, (retained_reuse _ _ _ Hr2). reflexivity.
Qed.

Lemma validity_check_is_recorded_witness :
  (8 <= PyStr.len "Tr@mpoline$92!")%nat
  /\ (List.length [("2025-08-16 10:00:01", "password", "")] <= 49)%nat
  /\ exists valid final_score self2 score analysis self3,
       is_valid_password reference_runtime (__init__ "balanced" "en")
         "2025-08-16 10:00:00" "Tr@mpoline$92!"
       = Ok (valid, add_to_history (__init__ "balanced" "en")
                      "2025-08-16 10:00:00" "Tr@mpoline$92!" final_score)
       /\ score_all reference_runtime
            (add_to_history (__init__ "balanced" "en")
               "2025-08-16 10:00:00" "Tr@mpoline$92!" final_score)
            [("2025-08-16 10:00:01", "password", "")] = Ok self2
       /\ score_password reference_runtime self2 "2025-08-16 10:00:02" "Tr@mpoline$92!" ""
          = Ok (score, analysis, self3)
       /\ analysis !! "reuse_penalty" = Some (VNum (0.5 * 10)).
Proof.
  split; [vm_compute; lia |]. split; [vm_compute; lia |].
  apply validity_check_is_recorded; vm_compute; lia.
Defined.

(** C10, the claim as stated fails at 50 intervening calls: after
    [is_valid_password] on the candidate and 50 scoring calls on 50 other
    candidates, the entry of the candidate has been evicted and
    [score_password] reports the reuse penalty 0. *)
Lemma reuse_forgotten_after_fifty_calls :
  let candidate := "Tr@mpoline$92!" in
  let calls :=
    List.map (fun i => ("2025-08-16 10:00:01", "filler" ++ PyStr.of_nat i, "")) (seq 0 50) in
  List.length calls = 50%nat
  /\ ('(valid, self1) ← is_valid_password reference_runtime (__init__ "balanced" "en")
                          "2025-08-16 10:00:00" candidate;
      self2 ← score_all reference_runtime self1 calls;
      '(_, analysis, _) ← score_password reference_runtime self2
                            "2025-08-16 10:00:02" candidate "";
      mret (valid, List.length (password_history self2), analysis !! "reuse_penalty"))
     = Ok (true, 50%nat, Some (VNum (0.0 * 10))).
Proof. cbv zeta. split; vm_compute; reflexivity. Qed.

(** ** Memorable passwords from the hint "sunset" *)

Lemma choice_In (l : list string) (tape : list nat) :
  l <> [] -> In (fst (choice l tape)) l.
Proof.
  intros Hl. unfold choice. destruct (draw tape) as [r tape']. cbn [fst].
  apply nth_In. apply Nat.mod_upper_bound. destruct l; [contradiction | discriminate].
Qed.

Lemma randint_range (a b : nat) (tape : list nat) :
  (a <= b)%nat -> (a <= fst (randint a b tape) <= b)%nat.
Proof.
  intros Hab. unfold randint. destruct (draw tape) as [r tape']. cbn [fst].
  pose proof (Nat.mod_upper_bound r (b - a + 1) ltac:(lia)). lia.
Qed.

Lemma year_four_characters (y : nat) :
  (2020 <= y <= 2025)%nat ->
  exists a b c d, PyStr.of_nat y = String a (String b (String c (String d ""))).
Proof.
  intros Hy.
  assert (Hcases : In y [2020; 2021; 2022; 2023; 2024; 2025]%nat) by (cbn; lia).
  clear Hy.
  repeat (destruct Hcases as [<- | Hcases]; [do 4 eexists; vm_compute; reflexivity |]).
  contradiction.
Qed.

(** All outcomes of the call on "sunset", 16, "balanced": whatever is drawn,
    the password starts with "Suns3t"; it has exactly 16 characters when the
    security word drawn is "Secure" or "Strong" (17 characters cut to 16),
    and 18 or 19 when it is "Safe" (15 characters and then "Pro", "Max" or
    "Plus", not cut). *)
Lemma generate_memorable_sunset (tape : list nat) :
  let password := fst (generate_memorable_password tape "sunset" 16 "balanced") in
  let word := fst (choice ["Secure"; "Strong"; "Safe"] tape) in
  PyStr.startswith "Suns3t" password = true
  /\ (16 <= String.length password <= 19)%nat
  /\ (if String.eqb word "Safe"
      then String.length password = 18%nat \/ String.length password = 19%nat
      else String.length password = 16%nat).
Proof.
  cbv zeta. unfold generate_memorable_password. cbv beta zeta.
  pose proof (choice_In ["Secure"; "Strong"; "Safe"] tape ltac:(discriminate)) as Hw.
  destruct (choice ["Secure"; "Strong"; "Safe"] tape) as [word t1].
  cbn [fst] in Hw. cbv beta iota.
  change (numbers (default _ (complexity_configs !! "balanced"))) with true.
  cbv beta iota.
  pose proof (randint_range 2020 2025 t1 ltac:(lia)) as Hy.
  destruct (randint 2020 2025 t1) as [y t2]. cbn [fst] in Hy. cbv beta iota.
  destruct (year_four_characters y Hy) as (a & b & c & d & ->). clear Hy.
  change (symbols (default _ (complexity_configs !! "balanced")))
    with ["!"; "@"; "#"; "$"].
  pose proof (choice_In ["!"; "@"; "#"; "$"] t2 ltac:(discriminate)) as Hs.
  destruct (choice ["!"; "@"; "#"; "$"] t2) as [symbol t3].
  cbn [fst] in Hs. cbv beta iota.
  pose proof (choice_In ["Pro"; "Max"; "Plus"] t3 ltac:(discriminate)) as Hx.
  destruct (choice ["Pro"; "Max"; "Plus"] t3) as [suffix t4]. cbn [fst] in Hx.
  repeat (destruct Hw as [<- | Hw]; [| try contradiction]);
    repeat (destruct Hs as [<- | Hs]; [| try contradiction]);
    repeat (destruct Hx as [<- | Hx]; [| try contradiction]);
    vm_compute; repeat split; auto.
Qed.

(** C5: the password generated from "sunset" at length 16 and complexity
    "balanced" carries "Suns3t" in front, but its length is not always 16:
    when the draws are "Safe", 2020, "!" and "Pro", the 15 characters get
    "Pro" appended, nothing is cut, and the result has 18 characters. *)
Theorem generate_memorable_sunset_18 :
  generate_memorable_password [2; 0; 0; 0]%nat "sunset" 16 "balanced"
  = ("Suns3tSafe2020!Pro", [])
  /\ String.length (fst (generate_memorable_password [2; 0; 0; 0]%nat "sunset" 16 "balanced"))
     = 18%nat
  /\ PyStr.startswith "Suns3t"
       (fst (generate_memorable_password [2; 0; 0; 0]%nat "sunset" 16 "balanced")) = true.
Proof. repeat split; vm_compute; reflexivity. Qed.

(** ** Further properties *)

(** Scoring the same non-empty candidate twice in a row: the second call
    reports the reuse penalty 5. *)
Theorem rescoring_reports_reuse rt self now1 now2 password hint1 hint2 :
  password <> "" ->
  exists score1 analysis1 self1 score2 analysis2 self2,
    score_password rt self now1 password hint1 = Ok (score1, analysis1, self1)
    /\ score_password rt self1 now2 password hint2 = Ok (score2, analysis2, self2)
    /\ analysis2 !! "reuse_penalty" = Some (VNum (0.5 * 10)).
Proof.
  intros Hne.
  destruct (score_password_nonempty rt self now1 password hint1 Hne)
    as (pron & patterns & analysis & _ & _ & _ & _ & _ & Hs).
  cbv zeta in Hs.
  match type of Hs with
  | _ = Ok (_, _, ?s) => set (self1 := s) in *
  end.
  assert (Hr : retained 0 (Sha256.hexdigest password) (password_history self1)).
  { subst self1. rewrite pushed_add_to_history. apply retained_pushed_same. }
  destruct (score_password_nonempty rt self1 now2 password hint2 Hne)
    as (pron2 & patterns2 & analysis2 & _ & _ & _ & Hreuse & _ & Hs2).
  cbv zeta in Hs2.
  eexists _, _, self1, _, _, _.
  split; [exact Hs |]. split; [exact Hs2 |].
  rewrite zxcvbn_blend_lookup by discriminate.
  rewrite Hreuse, (retained_reuse _ _ _ Hr). reflexivity.
Qed.

Lemma rescoring_reports_reuse_witness :
  "sunset2024!" <> ""
  /\ exists score1 analysis1 self1 score2 analysis2 self2,
       score_password reference_runtime (__init__ "balanced" "en")
         "2025-08-16 10:00:00" "sunset2024!" "" = Ok (score1, analysis1, self1)
       /\ score_password reference_runtime self1
            "2025-08-16 10:00:01" "sunset2024!" "sunset" = Ok (score2, analysis2, self2)
       /\ analysis2 !! "reuse_penalty" = Some (VNum (0.5 * 10)).
Proof.
  split; [discriminate |].
  apply rescoring_reports_reuse. discriminate.
Defined.

(** On every non-empty candidate [detect_patterns] returns a list of
    findings and [estimate_pronounceability] a value between 0 and 1. *)
Theorem pattern_library_returns_on_nonempty password :
  password <> "" ->
  (exists patterns, detect_patterns password = Ok patterns)
  /\ (exists p, estimate_pronounceability password = Ok p /\ (0 <= p <= 1)%Q).
Proof.
  intros Hne. split.
  - apply detect_patterns_total, Hne.
  - apply estimate_pronounceability_total, Hne.
Qed.

Lemma pattern_library_returns_on_nonempty_witness :
  "!" <> ""
  /\ (exists patterns, detect_patterns "!" = Ok patterns)
  /\ (exists p, estimate_pronounceability "!" = Ok p /\ (0 <= p <= 1)%Q).
Proof.
  split; [discriminate |].
  apply pattern_library_returns_on_nonempty. discriminate.
Defined.

(** * Further properties of the code *)

(** ** Edit distance *)

(** On ASCII strings whose lengths differ by more than 2,
    [_simple_edit_distance] answers more than 2: the length of the longer
    string against an empty one, the sentinel 3 otherwise. *)
Theorem edit_distance_length_gap (s1 s2 : string) :
  PyStr.isascii s1 = true -> PyStr.isascii s2 = true ->
  (String.length s1 + 2 < String.length s2)%nat
  \/ (String.length s2 + 2 < String.length s1)%nat ->
  (2 < _simple_edit_distance s1 s2)%nat.
Proof.
  intros _ _ Hgap. unfold _simple_edit_distance.
  destruct (Nat.ltb_spec (String.length s1) (String.length s2)) as [Hlt | Hge].
  - destruct (String.eqb_spec s1 "") as [-> | Hne]; [cbn in *; lia |].
    destruct (Nat.ltb_spec 2 (String.length s2 - String.length s1)); lia.
  - destruct (String.eqb_spec s2 "") as [-> | Hne]; [cbn in *; lia |].
    destruct (Nat.ltb_spec 2 (String.length s1 - String.length s2)); lia.
Qed.

Lemma edit_distance_length_gap_witness :
  PyStr.isascii "pass" = true /\ PyStr.isascii "password" = true
  /\ ((String.length "pass" + 2 < String.length "password")%nat
      \/ (String.length "password" + 2 < String.length "pass")%nat)
  /\ (2 < _simple_edit_distance "pass" "password")%nat.
Proof.
  assert (H1 : PyStr.isascii "pass" = true) by reflexivity.
  assert (H2 : PyStr.isascii "password" = true) by reflexivity.
  assert (H : (String.length "pass" + 2 < String.length "password")%nat
              \/ (String.length "password" + 2 < String.length "pass")%nat)
    by (left; vm_compute; lia).
  split; [exact H1 |]. split; [exact H2 |]. split; [exact H |].
  exact (edit_distance_length_gap "pass" "password" H1 H2 H).
Defined.

(** ** Leet reversal *)

Lemma replace_cons (a b c : ascii) (s : string) :
  PyStr.replace a b (String c s) = String (if Ascii.eqb c a then b else c) (PyStr.replace a b s).
Proof. reflexivity. Qed.

Lemma reverse_leet_inner (char : ascii) (subs : list ascii) : forall (c : ascii) (s : string),
  fold_left (fun result sub => PyStr.replace sub char result) subs (String c s)
  = String (fold_left (fun result sub => if Ascii.eqb result sub then char else result) subs c)
           (fold_left (fun result sub => PyStr.replace sub char result) subs s).
Proof.
  induction subs as [| sub subs IH]; intros c s; [reflexivity |].
  cbn [fold_left]. rewrite replace_cons. apply IH.
Qed.

Lemma reverse_leet_inner_empty (char : ascii) (subs : list ascii) :
  fold_left (fun result sub => PyStr.replace sub char result) subs "" = "".
Proof. induction subs as [| sub subs IH]; [reflexivity | exact IH]. Qed.

Lemma reverse_leet_table (table : list (ascii * list ascii)) : forall (c : ascii) (s : string),
  fold_left
    (fun result '(char, substitutions) =>
       fold_left (fun result sub => PyStr.replace sub char result) substitutions result)
    table (String c s)
  = String
      (fold_left
         (fun result '(char, substitutions) =>
            fold_left (fun result sub => if Ascii.eqb result sub then char else result)
              substitutions result)
         table c)
      (fold_left
         (fun result '(char, substitutions) =>
            fold_left (fun result sub => PyStr.replace sub char result) substitutions result)
         table s).
Proof.
  induction table as [| [char subs] table IH]; intros c s; [reflexivity |].
  cbn [fold_left]. rewrite reverse_leet_inner. apply IH.
Qed.

Lemma reverse_leet_table_empty (table : list (ascii * list ascii)) :
  fold_left
    (fun result '(char, substitutions) =>
       fold_left (fun result sub => PyStr.replace sub char result) substitutions result)
    table "" = "".
Proof.
  induction table as [| [char subs] table IH]; [reflexivity |].
  cbn [fold_left]. rewrite reverse_leet_inner_empty. exact IH.
Qed.

(** [_reverse_leet_speak] works character by character. *)
Lemma reverse_leet_cons (c : ascii) (s : string) :
  _reverse_leet_speak (String c s) = String (deleet_char c) (_reverse_leet_speak s).
Proof. apply reverse_leet_table. Qed.

Lemma deleet_char_clean (c : ascii) :
  is_leet (deleet_char c) = false /\ deleet_char (deleet_char c) = deleet_char c.
Proof. destruct c as [[] [] [] [] [] [] [] []]; split; vm_compute; reflexivity. Qed.

(** [_reverse_leet_speak] keeps the length, leaves no substitute character
    of the table behind, and changes nothing when applied again. *)
Theorem reverse_leet_speak_normalizes (password : string) :
  String.length (_reverse_leet_speak password) = String.length password
  /\ PyStr.any is_leet (_reverse_leet_speak password) = false
  /\ _reverse_leet_speak (_reverse_leet_speak password) = _reverse_leet_speak password.
Proof.
  induction password as [| c s (IHlen & IHany & IHidem)].
  - repeat split; apply reverse_leet_table_empty.
  - rewrite !reverse_leet_cons. destruct (deleet_char_clean c) as [Hc Hi].
    repeat split.
    + cbn [String.length]. rewrite IHlen. reflexivity.
    + cbn [PyStr.any]. rewrite Hc, IHany. reflexivity.
    + rewrite Hi, IHidem. reflexivity.
Qed.

(** ** Similarity matcher *)

Lemma lower_char_idempotent (c : ascii) : PyStr.lower_char (PyStr.lower_char c) = PyStr.lower_char c.
Proof. destruct c as [[] [] [] [] [] [] [] []]; vm_compute; reflexivity. Qed.

Lemma lower_idempotent (s : string) : PyStr.lower (PyStr.lower s) = PyStr.lower s.
Proof.
  induction s as [| c s IH]; [reflexivity |].
  cbn [PyStr.lower]. rewrite lower_char_idempotent, IH. reflexivity.
Qed.

Lemma check_common_passwords_cases (password : string) :
  check_common_passwords password = (true, 0.9%Q)
  \/ check_common_passwords password = (true, 0.7%Q)
  \/ check_common_passwords password = (false, 0.0%Q).
Proof.
  unfold check_common_passwords.
  destruct (bool_decide _); [left; reflexivity |].
  destruct (existsb _ _); [right; left | right; right]; reflexivity.
Qed.

(** [check_common_passwords] answers (True, 0.9), (True, 0.7) or
    (False, 0.0), and the answer does not depend on the case of the
    letters of the candidate. *)
Theorem check_common_passwords_contract (password : string) :
  (check_common_passwords password = (true, 0.9%Q)
   \/ check_common_passwords password = (true, 0.7%Q)
   \/ check_common_passwords password = (false, 0.0%Q))
  /\ check_common_passwords (PyStr.lower password) = check_common_passwords password.
Proof.
  split; [apply check_common_passwords_cases |].
  unfold check_common_passwords. rewrite lower_idempotent. reflexivity.
Qed.

(** ** Confusing characters *)

Lemma adjacent_confusing_two (password : string) : forall i a b,
  String.get i password = Some a -> String.get (i + 1) password = Some b ->
  is_confusing a = true -> is_confusing b = true ->
  (2 <= PyStr.count_if is_confusing password)%nat.
Proof.
  induction password as [| c s IH]; intros i a b Ha Hb Hca Hcb; [discriminate |].
  destruct i as [| i].
  - cbn in Ha. injection Ha as ->. cbn in Hb.
    destruct s as [| d s]; [discriminate |]. cbn in Hb. injection Hb as ->.
    cbn [PyStr.count_if]. rewrite Hca, Hcb. lia.
  - cbn in Ha, Hb. cbn [PyStr.count_if].
    pose proof (IH i a b Ha Hb Hca Hcb). lia.
Qed.

(** [check_confusing_chars] flags a candidate exactly when it holds two or
    more confusing characters: the test for adjacent ones adds nothing to
    the flag.  The penalty is 0.3, 0.2 or 0.0, and it is 0.0 exactly when
    there are fewer than two confusing characters. *)
Theorem check_confusing_chars_contract (password : string) :
  fst (check_confusing_chars password)
  = (2 <=? PyStr.count_if is_confusing password)%nat
  /\ (snd (check_confusing_chars password) = 0.3%Q
      \/ snd (check_confusing_chars password) = 0.2%Q
      \/ snd (check_confusing_chars password) = 0.0%Q)
  /\ ((PyStr.count_if is_confusing password <? 2)%nat = true
      <-> snd (check_confusing_chars password) = 0.0%Q).
Proof.
  unfold check_confusing_chars. cbn [fst snd].
  match goal with
  | |- context [existsb ?f ?l] => destruct (existsb f l) eqn:Eadj
  end.
  - apply existsb_exists in Eadj. destruct Eadj as (i & _ & Hi).
    destruct (String.get i password) as [a |] eqn:Ha; [| discriminate].
    destruct (String.get (i + 1) password) as [b |] eqn:Hb; [| discriminate].
    apply andb_prop in Hi. destruct Hi as [Hca Hcb].
    pose proof (adjacent_confusing_two password i a b Ha Hb Hca Hcb) as H2.
    destruct (Nat.leb_spec 2 (PyStr.count_if is_confusing password)) as [_ | Hlt]; [| lia].
    split; [reflexivity |]. split; [left; reflexivity |].
    split; [intros H; apply Nat.ltb_lt in H; lia | discriminate].
  - destruct (Nat.leb_spec 2 (PyStr.count_if is_confusing password)) as [Hge | Hlt].
    + split; [reflexivity |]. split; [right; left; reflexivity |].
      split; [intros H; apply Nat.ltb_lt in H; lia | discriminate].
    + split; [reflexivity |]. split; [right; right; reflexivity |].
      split; [reflexivity | intros _; apply Nat.ltb_lt; exact Hlt].
Qed.

(** ** Digests in the ledger *)

Lemma hex_digit_is_hex (n : N) : (n < 16)%N -> is_hex (Sha256.hex_digit n) = true.
Proof.
  intros Hn. destruct n as [| p]; [reflexivity |].
  do 5 (try (destruct p as [p | p |]; try lia)); reflexivity.
Qed.

Lemma hex32_shape (x : N) :
  List.length (Sha256.hex32 x) = 8%nat /\ forallb is_hex (Sha256.hex32 x) = true.
Proof.
  unfold Sha256.hex32. split; [reflexivity |].
  apply forallb_forall. intros c Hc. apply in_map_iff in Hc.
  destruct Hc as (i & <- & _). apply hex_digit_is_hex.
  change 15%N with (N.ones 4). rewrite N.land_ones.
  apply N.mod_upper_bound. discriminate.
Qed.

Lemma any_of_list (p : ascii -> bool) (l : list ascii) :
  PyStr.any p (string_of_list_ascii l) = existsb p l.
Proof. induction l as [| c l IH]; [reflexivity |]. cbn. rewrite IH. reflexivity. Qed.

Lemma length_of_list (l : list ascii) : String.length (string_of_list_ascii l) = List.length l.
Proof. induction l as [| c l IH]; [reflexivity |]. cbn. rewrite IH. reflexivity. Qed.

Lemma existsb_negb_forallb {A : Type} (p : A -> bool) (l : list A) :
  forallb p l = true -> existsb (fun x => negb (p x)) l = false.
Proof.
  induction l as [| x l IH]; [reflexivity |]. cbn. intros H.
  apply andb_prop in H. destruct H as [Hx Hl]. rewrite Hx, (IH Hl). reflexivity.
Qed.

(** The digest that [add_to_history] stores is 64 characters long, all of
    them lower-case hexadecimal digits, whatever the candidate. *)
Theorem history_digest_shape self now password score :
  exists digest,
    last (password_history (add_to_history self now password score))
    = Some (digest, score, now)
    /\ String.length digest = 64%nat
    /\ PyStr.any (fun c => negb (is_hex c)) digest = false.
Proof.
  exists (Sha256.hexdigest password). split.
  - rewrite add_to_history_history. cbv zeta.
    match goal with
    | |- context [(50 <? ?n)%nat] => destruct (Nat.ltb_spec 50 n) as [Hlt | Hle]
    end.
    + destruct (password_history self) as [| e0 h]; [cbn in Hlt; lia |].
      cbn [List.app List.tl]. apply last_snoc.
    + apply last_snoc.
  - unfold Sha256.hexdigest.
    destruct (Sha256.digest _) as [[[[[[[a b] c] d] e] f] g] h].
    rewrite length_of_list, any_of_list.
    pose proof (hex32_shape a) as [La Ha]. pose proof (hex32_shape b) as [Lb Hb].
    pose proof (hex32_shape c) as [Lc Hc]. pose proof (hex32_shape d) as [Ld Hd].
    pose proof (hex32_shape e) as [Le He]. pose proof (hex32_shape f) as [Lf Hf].
    pose proof (hex32_shape g) as [Lg Hg]. pose proof (hex32_shape h) as [Lh Hh].
    split.
    + rewrite !length_app, La, Lb, Lc, Ld, Le, Lf, Lg, Lh. reflexivity.
    + apply existsb_negb_forallb. rewrite !forallb_app, Ha, Hb, Hc, Hd, He, Hf, Hg, Hh.
      reflexivity.
Qed.

(** ** Strength bar *)

Lemma filled_within_width (score width : Z) :
  (0 <= score <= 100)%Z -> (0 <= width)%Z ->
  (0 <= py_int (inject_Z score / 100 * inject_Z width) <= width)%Z.
Proof.
  intros [Hs0 Hs1] Hw. apply py_int_bounds; [exact Hw |].
  assert (H0 : (inject_Z 0 <= inject_Z score)%Q) by (rewrite <- Zle_Qle; exact Hs0).
  assert (H1 : (inject_Z score <= inject_Z 100)%Q) by (rewrite <- Zle_Qle; exact Hs1).
  assert (H2 : (inject_Z 0 <= inject_Z width)%Q) by (rewrite <- Zle_Qle; exact Hw).
  change (inject_Z 0) with 0%Q in *. change (inject_Z 100) with 100%Q in *.
  assert (Hd : (inject_Z score / 100 == inject_Z score * (1 # 100))%Q) by field.
  rewrite Hd.
  set (s := inject_Z score) in *. set (w := inject_Z width) in *. clearbody s w.
  split.
  - apply Qmult_le_0_compat; lra.
  - assert (Hsw : (s * (1 # 100) * w <= 1 * w)%Q) by (apply Qmult_le_compat_r; lra).
    lra.
Qed.

(** For a score from 0 to 100 the bar of [format_strength_bar] has exactly
    [width] cells: some filled ones, then empty ones, between the brackets
    and before the score. *)
Theorem strength_bar_cells (score width : Z) :
  (0 <= score <= 100)%Z -> (0 <= width)%Z ->
  exists (fill_char : string) (filled empty : nat),
    (filled + empty = Z.to_nat width)%nat
    /\ In fill_char ["█"; "▓"; "▒"; "░"]
    /\ format_strength_bar score width
       = "[" ++ PyStr.repeat fill_char filled ++ PyStr.repeat "░" empty
             ++ "] " ++ PyStr.of_Z score ++ "/100".
Proof.
  intros Hs Hw. pose proof (filled_within_width score width Hs Hw) as Hf.
  unfold format_strength_bar. cbv zeta.
  set (filled := py_int (inject_Z score / 100 * inject_Z width)) in *.
  eexists _, (Z.to_nat filled), (Z.to_nat (width - filled)).
  split; [lia |]. split; [| reflexivity].
  destruct (80 <=? score)%Z; [left; reflexivity |].
  destruct (60 <=? score)%Z; [right; left; reflexivity |].
  destruct (40 <=? score)%Z; [right; right; left; reflexivity |].
  right; right; right; left; reflexivity.
Qed.

Lemma strength_bar_cells_witness :
  (0 <= 85 <= 100)%Z /\ (0 <= 20)%Z
  /\ exists (fill_char : string) (filled empty : nat),
       (filled + empty = Z.to_nat 20)%nat
       /\ In fill_char ["█"; "▓"; "▒"; "░"]
       /\ format_strength_bar 85 20
          = "[" ++ PyStr.repeat fill_char filled ++ PyStr.repeat "░" empty
                ++ "] " ++ PyStr.of_Z 85 ++ "/100".
Proof.
  split; [lia |]. split; [lia |].
  apply strength_bar_cells; lia.
Defined.

(** ** Pattern library *)

Lemma Ok_inj {A : Type} (a b : A) : Ok a = Ok b -> a = b.
Proof. intros H. now inversion H. Qed.

(** The nine checks behind a list of findings. *)
Lemma detect_patterns_parts (password : string) (patterns : list Pattern) :
  detect_patterns password = Ok patterns ->
  exists low excessive,
    low_vowels_findings password (PyStr.lower password) = Ok low
    /\ excessive_symbols_findings password = Ok excessive
    /\ patterns
       = (((keyboard_findings (PyStr.lower password)
            ++ repeated_character_findings password
            ++ repeated_token_findings password
            ++ year_findings password
            ++ number_sequence_findings password
            ++ palindrome_findings password (PyStr.lower password))
           ++ low ++ alternating_findings password) ++ excessive)%list.
Proof.
  unfold detect_patterns. intros H.
  destruct (low_vowels_findings password (PyStr.lower password)) as [low |]; [| discriminate].
  rewrite bind_Ok in H.
  destruct (excessive_symbols_findings password) as [excessive |]; [| discriminate].
  rewrite bind_Ok in H. apply Ok_inj in H. subst patterns.
  exists low, excessive. split; [reflexivity |]. split; reflexivity.
Qed.

Lemma low_vowels_cases (password password_lower : string) (low : list Pattern) :
  low_vowels_findings password password_lower = Ok low ->
  low = []
  \/ (low = [ {| ptype := "low_vowels";
                 description := "Low vowel frequency (possibly random)";
                 penalty := 0.3 |} ]
      /\ (8 <= String.length password)%nat).
Proof.
  unfold low_vowels_findings.
  destruct (Nat.leb_spec 8 (String.length password)) as [Hge | Hlt].
  - rewrite truediv_nonzero by lia. rewrite bind_Ok.
    destruct (Qltb _ _); intros H; apply Ok_inj in H; subst low; [right | left]; auto.
  - intros H; apply Ok_inj in H; subst low. left; reflexivity.
Qed.

Lemma excessive_symbols_cases (password : string) (excessive : list Pattern) :
  excessive_symbols_findings password = Ok excessive ->
  excessive = []
  \/ excessive = [ {| ptype := "excessive_symbols";
                      description := "Too many symbols reduce readability";
                      penalty := 0.2 |} ].
Proof.
  unfold excessive_symbols_findings.
  destruct (truediv _ _) as [ratio |]; [| discriminate]. rewrite bind_Ok.
  destruct (Qltb _ _); intros H; apply Ok_inj in H; subst excessive; [right | left]; reflexivity.
Qed.

Lemma Forall_map_const {A : Type} (P : Pattern -> Prop) (f : A -> Pattern) (l : list A) :
  (forall x, In x l -> P (f x)) -> Forall P (List.map f l).
Proof.
  intros H. apply List.Forall_forall. intros p Hp. apply in_map_iff in Hp.
  destruct Hp as (x & <- & Hx). apply H, Hx.
Qed.

Lemma findings_positive (password : string) (patterns : list Pattern) :
  detect_patterns password = Ok patterns ->
  Forall (fun finding => (0 < penalty finding)%Q) patterns.
Proof.
  intros H.
  destruct (detect_patterns_parts password patterns H) as (low & exc & Hlow & Hexc & ->).
  repeat apply Forall_app_2.
  - apply Forall_map_const. intros; reflexivity.
  - apply Forall_map_const. intros c Hc. apply filter_In in Hc. destruct Hc as [_ Hc].
    apply Nat.leb_le in Hc. cbn [penalty].
    assert (Hq : (inject_Z 1 <= inject_Z (Z.of_nat (PyStr.count c password) - 2))%Q)
      by (rewrite <- Zle_Qle; lia).
    change (inject_Z 1) with 1%Q in Hq.
    set (k := inject_Z _) in *. clearbody k. lra.
  - unfold repeated_token_findings.
    destruct (6 <=? String.length password)%nat; [| constructor].
    destruct (List.find _ _); repeat constructor.
  - apply Forall_map_const. intros; reflexivity.
  - apply Forall_map_const. intros; reflexivity.
  - unfold palindrome_findings. destruct (_ && _); repeat constructor.
  - destruct (low_vowels_cases _ _ _ Hlow) as [-> | [-> _]]; repeat constructor.
  - unfold alternating_findings. destruct (List.find _ _); repeat constructor.
  - destruct (excessive_symbols_cases _ _ Hexc) as [-> | ->]; repeat constructor.
Qed.

Lemma penalty_sum_nonneg (patterns : list Pattern) :
  Forall (fun finding => (0 < penalty finding)%Q) patterns ->
  (0 <= Qsum (List.map (fun pattern => penalty pattern * 10) patterns))%Q.
Proof.
  intros Hall. unfold Qsum.
  assert (Hgen : forall l acc, Forall (fun finding => (0 < penalty finding)%Q) l ->
            (0 <= acc)%Q ->
            (0 <= fold_left Qplus (List.map (fun pattern => penalty pattern * 10) l) acc)%Q).
  { induction l as [| x l IH]; intros acc Hl Hacc; [exact Hacc |].
    inversion Hl as [| ? ? Hx Hl']; subst. cbn [List.map fold_left].
    apply IH; [exact Hl' | lra]. }
  apply Hgen; [exact Hall | lra].
Qed.

(** Every finding carries a positive penalty, so the pattern penalty of a
    candidate is never negative. *)
Theorem detect_patterns_penalties_positive (password : string) (patterns : list Pattern) :
  detect_patterns password = Ok patterns ->
  Forall (fun finding => (0 < penalty finding)%Q) patterns
  /\ (0 <= Qsum (List.map (fun pattern => penalty pattern * 10) patterns))%Q.
Proof.
  intros H. pose proof (findings_positive password patterns H) as Hall.
  split; [exact Hall | apply penalty_sum_nonneg; exact Hall].
Qed.

Lemma detect_patterns_penalties_positive_witness :
  detect_patterns "qwerty1987!!"
  = Ok [ {| ptype := "keyboard_sequence";
            description := "Contains keyboard sequence 'qwerty'"; penalty := 0.3 |};
         {| ptype := "year_pattern";
            description := "Contains year '1987'"; penalty := 0.15 |};
         {| ptype := "number_sequence";
            description := "Contains number sequence '789'"; penalty := 0.25 |};
         {| ptype := "low_vowels";
            description := "Low vowel frequency (possibly random)"; penalty := 0.3 |} ]
  /\ Forall (fun finding => (0 < penalty finding)%Q)
       [ {| ptype := "keyboard_sequence";
            description := "Contains keyboard sequence 'qwerty'"; penalty := 0.3 |};
         {| ptype := "year_pattern";
            description := "Contains year '1987'"; penalty := 0.15 |};
         {| ptype := "number_sequence";
            description := "Contains number sequence '789'"; penalty := 0.25 |};
         {| ptype := "low_vowels";
            description := "Low vowel frequency (possibly random)"; penalty := 0.3 |} ].
Proof.
  assert (H : detect_patterns "qwerty1987!!"
              = Ok [ {| ptype := "keyboard_sequence";
                        description := "Contains keyboard sequence 'qwerty'"; penalty := 0.3 |};
                     {| ptype := "year_pattern";
                        description := "Contains year '1987'"; penalty := 0.15 |};
                     {| ptype := "number_sequence";
                        description := "Contains number sequence '789'"; penalty := 0.25 |};
                     {| ptype := "low_vowels";
                        description := "Low vowel frequency (possibly random)";
                        penalty := 0.3 |} ]) by (vm_compute; reflexivity).
  split; [exact H |].
  exact (proj1 (detect_patterns_penalties_positive _ _ H)).
Defined.





(** ** Breakdown and feedback *)

(** The breakdown of a non-empty candidate: all components, the findings,
    and no error marker. *)
Lemma score_password_components rt self now password hint :
  password <> "" ->
  exists score analysis self' pronounceability patterns,
    score_password rt self now password hint = Ok (score, analysis, self')
    /\ estimate_pronounceability password = Ok pronounceability
    /\ detect_patterns password = Ok patterns
    /\ analysis !! "length_score" = Some (VNum (length_score rt password))
    /\ analysis !! "variety_score" = Some (VNum (variety_score password))
    /\ analysis !! "uniqueness_score" = Some (VNum (uniqueness_score rt password))
    /\ analysis !! "pronounceability_score" = Some (VNum (pronounceability * 10))
    /\ analysis !! "bonus_points" = Some (VNum (bonus_points password))
    /\ analysis !! "total_penalty"
       = Some (VNum (Qsum (List.map (fun pattern => penalty pattern * 10)%Q patterns)))
    /\ analysis !! "blacklist_penalty"
       = Some (VNum (snd (check_common_passwords password) * 30))
    /\ analysis !! "confusing_penalty"
       = Some (VNum (snd (check_confusing_chars password) * 10))
    /\ analysis !! "reuse_penalty"
       = Some (VNum (snd (check_password_reuse self password) * 10))
    /\ analysis !! "hint_relevance_score" = Some (VNum (hint_relevance_score password hint))
    /\ analysis !! "pattern_penalties" = Some (VPatterns patterns)
    /\ analysis !! "error" = None
    /\ strictness_mode self' = strictness_mode self
    /\ language self' = language self.
Proof.
  intros Hne. unfold score_password.
  rewrite (eqb_empty_false _ Hne).
  destruct (estimate_pronounceability_total password Hne) as (pron & Epron & _).
  destruct (detect_patterns_total password Hne) as (patterns & Epat).
  rewrite Epron, bind_Ok, Epat, bind_Ok.
  destruct (check_common_passwords password) as [is_common blacklist].
  destruct (check_confusing_chars password) as [is_conf confusing].
  destruct (check_password_reuse self password) as [is_reused reuse].
  cbn [snd]. cbv zeta.
  match goal with
  | |- context [zxcvbn_blend rt password ?f ?a] =>
      pose proof (fun key => zxcvbn_blend_lookup rt password f a key) as Hlook;
      destruct (zxcvbn_blend rt password f a) as [final analysis']
  end.
  cbn [snd] in Hlook.
  eexists _, analysis', _, pron, patterns.
  split; [reflexivity |]. split; [reflexivity |]. split; [reflexivity |].
  repeat split; rewrite Hlook by discriminate;
    rewrite ?lookup_insert_ne by discriminate;
    first [apply lookup_insert_eq | apply lookup_empty].
Qed.

Lemma number_at_ok (analysis : gmap string Value) (key : string) (x : Q) :
  analysis !! key = Some (VNum x) -> number_at analysis key = Ok x.
Proof. intros H. unfold number_at, lookup_key. rewrite H. reflexivity. Qed.


Ltac usable_by_computation :=
  repeat split;
  [ eexists; split; [vm_compute; reflexivity |];
    intros strength score; eexists; vm_compute; reflexivity
  | eexists; split; [vm_compute; reflexivity |];
    intros points; eexists; vm_compute; reflexivity
  | eexists; vm_compute; reflexivity
  | eexists; vm_compute; reflexivity ].

Lemma english_table_usable :
  exists english, TRANSLATIONS !! "en" = Some english /\ usable_table english.
Proof.
  eexists. split.
  - unfold TRANSLATIONS. apply lookup_insert_eq.
  - usable_by_computation.
Qed.

Lemma hindi_table_usable :
  exists hindi, TRANSLATIONS !! "hi" = Some hindi /\ usable_table hindi.
Proof.
  eexists. split.
  - unfold TRANSLATIONS. rewrite lookup_insert_ne by discriminate. apply lookup_insert_eq.
  - usable_by_computation.
Qed.

(** The table chosen for a language: its own, or the English one. *)
Lemma chosen_table (language : string) :
  exists english,
    lookup_key TRANSLATIONS "en" = Ok english
    /\ usable_table (default english (TRANSLATIONS !! language))
    /\ (language <> "hi" -> default english (TRANSLATIONS !! language) = english).
Proof.
  destruct english_table_usable as (english & Hen & Huse).
  destruct hindi_table_usable as (hindi & Hhi & Huse').
  exists english. split; [unfold lookup_key; rewrite Hen; reflexivity |].
  destruct (decide (language = "en")) as [-> | Hne].
  { rewrite Hen. split; [exact Huse | reflexivity]. }
  destruct (decide (language = "hi")) as [-> | Hnh].
  { rewrite Hhi. split; [exact Huse' | congruence]. }
  assert (Hnone : TRANSLATIONS !! language = None).
  { unfold TRANSLATIONS. rewrite !lookup_insert_ne by congruence. apply lookup_empty. }
  rewrite Hnone. split; [exact Huse | reflexivity].
Qed.

Lemma thresholds_of_mode (mode : string) :
  In mode ["lenient"; "balanced"; "strict"] ->
  exists threshold weak fair good,
    lookup_key score_thresholds mode = Ok threshold
    /\ lookup_key threshold "weak" = Ok weak
    /\ lookup_key threshold "fair" = Ok fair
    /\ lookup_key threshold "good" = Ok good.
Proof.
  intros [<- | [<- | [<- | []]]]; eexists _, _, _, _; (split; [| repeat split]).
  - unfold lookup_key, score_thresholds. rewrite lookup_insert_eq. reflexivity.
  - vm_compute; reflexivity.
  - vm_compute; reflexivity.
  - vm_compute; reflexivity.
  - unfold lookup_key, score_thresholds.
    rewrite lookup_insert_ne by discriminate. rewrite lookup_insert_eq. reflexivity.
  - vm_compute; reflexivity.
  - vm_compute; reflexivity.
  - vm_compute; reflexivity.
  - unfold lookup_key, score_thresholds.
    rewrite !lookup_insert_ne by discriminate. rewrite lookup_insert_eq. reflexivity.
  - vm_compute; reflexivity.
  - vm_compute; reflexivity.
  - vm_compute; reflexivity.
Qed.

(** One step of a chain of binds: the first computation returns. *)
Ltac peel tac :=
  cbv beta zeta;
  lazymatch goal with
  | |- exists r, (?m ≫= ?k) = Ok r =>
      let H := fresh "Hstep" in
      let v := fresh "v" in
      assert (H : exists v, m = Ok v) by tac;
      destruct H as [v H]; rewrite H, ?bind_Ok; clear H
  end.

Ltac step H := cbv beta zeta; rewrite ?H, ?bind_Ok.

(** [give_feedback] returns on a breakdown that holds the components, for a
    known strictness mode and any language. *)
Lemma give_feedback_returns self score (analysis : gmap string Value)
    ls vs us ps bp bl cf ru patterns :
  In (strictness_mode self) ["lenient"; "balanced"; "strict"] ->
  analysis !! "length_score" = Some (VNum ls) ->
  analysis !! "variety_score" = Some (VNum vs) ->
  analysis !! "uniqueness_score" = Some (VNum us) ->
  analysis !! "pronounceability_score" = Some (VNum ps) ->
  analysis !! "bonus_points" = Some (VNum bp) ->
  analysis !! "blacklist_penalty" = Some (VNum bl) ->
  analysis !! "confusing_penalty" = Some (VNum cf) ->
  analysis !! "reuse_penalty" = Some (VNum ru) ->
  analysis !! "pattern_penalties" = Some (VPatterns patterns) ->
  analysis !! "error" = None ->
  exists text, give_feedback self score analysis = Ok text.
Proof.
  intros Hmode Hls Hvs Hus Hps Hbp Hbl Hcf Hru Hpat Herr.
  apply number_at_ok in Hls, Hvs, Hus, Hps, Hbp, Hbl, Hcf, Hru.
  assert (Hpat' : lookup_key analysis "pattern_penalties" = Ok (VPatterns patterns))
    by (unfold lookup_key; rewrite Hpat; reflexivity).
  destruct (chosen_table (language self))
    as (english & Hen & ((st & Hst & Hstf) & (sts & Hsts & Hstsf) & (imp & Himp) & (tip & Htip)) & _).
  destruct (thresholds_of_mode _ Hmode) as (th & weak & fair & good & Hth & Hw & Hf & Hg).
  unfold give_feedback.
  step Hen.
  step Hth.
  step Hw.
  peel ltac:(destruct (score <? weak)%Z; [eexists; reflexivity |];
             rewrite Hf, bind_Ok; destruct (score <? fair)%Z; [eexists; reflexivity |];
             rewrite Hg, bind_Ok; eexists; reflexivity).
  peel ltac:(destruct (score <? weak)%Z; [eexists; reflexivity |];
             rewrite Hf, bind_Ok; eexists; reflexivity).
  step Hst.
  peel ltac:(apply Hstf).
  step Hls.
  step Hvs.
  step Hus.
  step Hps.
  step Hbp.
  peel ltac:(idtac; lazymatch goal with
             | |- context [match ?pp with [] => _ | _ :: _ => _ end] =>
                 destruct pp as [| p0 pp']; [eexists; reflexivity |];
                 rewrite Hsts, bind_Ok;
                 destruct (Hstsf (join ", " (p0 :: pp'))) as [line Hline];
                 rewrite Hline, bind_Ok; eexists; reflexivity
             end).
  peel ltac:(rewrite Herr; eexists; reflexivity).
  step Hls.
  step Hvs.
  step Hbl.
  step Hcf.
  step Hru.
  step Hpat'.
  peel ltac:(eexists; reflexivity).
  peel ltac:(idtac; lazymatch goal with
             | |- context [match ?issues with [] => _ | _ :: _ => _ end] =>
                 destruct issues as [| i0 issues']; [eexists; reflexivity |];
                 rewrite Himp, bind_Ok; eexists; reflexivity
             end).
  step Htip.
  cbv beta zeta. eexists. reflexivity.
Qed.

(** After scoring a non-empty ASCII candidate, [give_feedback] on the score
    and the breakdown returns a text, for each of the three strictness modes
    and any language. *)
Theorem feedback_on_scored_candidate rt self now password hint :
  password <> "" ->
  PyStr.isascii password = true ->
  In (strictness_mode self) ["lenient"; "balanced"; "strict"] ->
  exists score analysis self' text,
    score_password rt self now password hint = Ok (score, analysis, self')
    /\ give_feedback self' score analysis = Ok text.
Proof.
  intros Hne _ Hmode.
  destruct (score_password_components rt self now password hint Hne)
    as (score & analysis & self' & pron & patterns & Hs & _ & _
        & Hls & Hvs & Hus & Hps & Hbp & _ & Hbl & Hcf & Hru & _ & Hpat & Herr & Hm & _).
  rewrite <- Hm in Hmode.
  destruct (give_feedback_returns self' score analysis _ _ _ _ _ _ _ _ _
              Hmode Hls Hvs Hus Hps Hbp Hbl Hcf Hru Hpat Herr) as [text Ht].
  exists score, analysis, self', text. split; assumption.
Qed.

Lemma feedback_on_scored_candidate_witness :
  "sunset2024!" <> ""
  /\ PyStr.isascii "sunset2024!" = true
  /\ In (strictness_mode (__init__ "strict" "hi")) ["lenient"; "balanced"; "strict"]
  /\ exists score analysis self' text,
       score_password reference_runtime (__init__ "strict" "hi")
         "2025-08-16 10:00:00" "sunset2024!" "sunset" = Ok (score, analysis, self')
       /\ give_feedback self' score analysis = Ok text.
Proof.
  assert (H1 : "sunset2024!" <> "") by discriminate.
  assert (H2 : In (strictness_mode (__init__ "strict" "hi")) ["lenient"; "balanced"; "strict"])
    by (cbn; auto).
  assert (H3 : PyStr.isascii "sunset2024!" = true) by reflexivity.
  split; [exact H1 |]. split; [exact H3 |]. split; [exact H2 |].
  exact (feedback_on_scored_candidate reference_runtime _ _ _ _ H1 H3 H2).
Defined.

(** With a strictness mode that [score_thresholds] does not list,
    [give_feedback] raises KeyError on the mode, whatever the breakdown. *)
Theorem give_feedback_unknown_mode self score (analysis : gmap string Value) :
  strictness_mode self <> "lenient" ->
  strictness_mode self <> "balanced" ->
  strictness_mode self <> "strict" ->
  give_feedback self score analysis = Raise (KeyError (strictness_mode self)).
Proof.
  intros H1 H2 H3.
  destruct (chosen_table (language self)) as (english & Hen & _).
  unfold give_feedback. rewrite Hen, bind_Ok. cbv beta zeta.
  assert (Hth : lookup_key score_thresholds (strictness_mode self)
                = Raise (KeyError (strictness_mode self))).
  { unfold lookup_key, score_thresholds.
    rewrite !lookup_insert_ne by congruence. rewrite lookup_empty. reflexivity. }
  rewrite Hth. reflexivity.
Qed.

Lemma give_feedback_unknown_mode_witness :
  strictness_mode (__init__ "paranoid" "en") <> "lenient"
  /\ strictness_mode (__init__ "paranoid" "en") <> "balanced"
  /\ strictness_mode (__init__ "paranoid" "en") <> "strict"
  /\ give_feedback (__init__ "paranoid" "en") 85 ∅ = Raise (KeyError "paranoid").
Proof.
  assert (H1 : strictness_mode (__init__ "paranoid" "en") <> "lenient") by discriminate.
  assert (H2 : strictness_mode (__init__ "paranoid" "en") <> "balanced") by discriminate.
  assert (H3 : strictness_mode (__init__ "paranoid" "en") <> "strict") by discriminate.
  split; [exact H1 |]. split; [exact H2 |]. split; [exact H3 |].
  exact (give_feedback_unknown_mode (__init__ "paranoid" "en") 85 ∅ H1 H2 H3).
Defined.

(** Any language other than "hi" gets the English texts: [give_feedback]
    answers as it does for "en". *)
Theorem give_feedback_language_fallback self score (analysis : gmap string Value) :
  language self <> "hi" ->
  give_feedback self score analysis
  = give_feedback
      {| strictness_mode := strictness_mode self; language := "en";
         password_history := password_history self |}
      score analysis.
Proof.
  intros Hl.
  destruct (chosen_table (language self)) as (english & Hen & _ & Hdef).
  destruct (chosen_table "en") as (english' & Hen' & _ & Hdef').
  rewrite Hen in Hen'. apply Ok_inj in Hen'. subst english'.
  unfold give_feedback. rewrite Hen, !bind_Ok. cbv beta zeta.
  cbn [language strictness_mode].
  rewrite (Hdef Hl), (Hdef' ltac:(discriminate)). reflexivity.
Qed.

Lemma give_feedback_language_fallback_witness :
  language (__init__ "balanced" "fr") <> "hi"
  /\ give_feedback (__init__ "balanced" "fr") 85 ∅
     = give_feedback
         {| strictness_mode := strictness_mode (__init__ "balanced" "fr"); language := "en";
            password_history := password_history (__init__ "balanced" "fr") |}
         85 ∅.
Proof.
  assert (H : language (__init__ "balanced" "fr") <> "hi") by discriminate.
  split; [exact H |].
  exact (give_feedback_language_fallback (__init__ "balanced" "fr") 85 ∅ H).
Defined.

(** ** Bounds of the components *)

Lemma uniqueness_score_le_15 rt password : (uniqueness_score rt password <= 15)%Q.
Proof.
  unfold uniqueness_score.
  destruct (1 <? _)%nat; [apply py_min_le_l | lra].
Qed.

Lemma variety_score_bounds password : (0 <= variety_score password <= 25)%Q.
Proof.
  rewrite variety_score_linear. pose proof (variety_count_le_4 password) as H4.
  set (n := variety_count password) in *. clearbody n.
  assert (H0 : (inject_Z 0 <= inject_Z (Z.of_nat n))%Q) by (rewrite <- Zle_Qle; lia).
  assert (Hn : (inject_Z (Z.of_nat n) <= inject_Z 4)%Q) by (rewrite <- Zle_Qle; lia).
  change (inject_Z 0) with 0%Q in H0. change (inject_Z 4) with 4%Q in Hn.
  set (q := inject_Z (Z.of_nat n)) in *. clearbody q. lra.
Qed.

Lemma blacklist_nonneg password : (0 <= snd (check_common_passwords password) * 30)%Q.
Proof.
  destruct (check_common_passwords_cases password) as [-> | [-> | ->]]; cbn [snd]; lra.
Qed.

Lemma confusing_nonneg password : (0 <= snd (check_confusing_chars password) * 10)%Q.
Proof.
  unfold check_confusing_chars. cbn [snd].
  destruct (existsb _ _); [lra |]. destruct (2 <=? _)%nat; lra.
Qed.

Lemma reuse_nonneg self password : (0 <= snd (check_password_reuse self password) * 10)%Q.
Proof.
  destruct (check_password_reuse_cases self password) as [-> | ->]; cbn [snd]; lra.
Qed.

(** In the breakdown of a non-empty candidate the length score is at most
    50, the variety score lies between 0 and 25, the uniqueness score is at
    most 15, the pronounceability score lies between 0 and 10, and the four
    penalties are not negative. *)
Theorem breakdown_component_bounds rt self now password hint :
  password <> "" ->
  exists score analysis self' ls vs us ps tp bl cf ru,
    score_password rt self now password hint = Ok (score, analysis, self')
    /\ analysis !! "length_score" = Some (VNum ls) /\ (ls <= 50)%Q
    /\ analysis !! "variety_score" = Some (VNum vs) /\ (0 <= vs <= 25)%Q
    /\ analysis !! "uniqueness_score" = Some (VNum us) /\ (us <= 15)%Q
    /\ analysis !! "pronounceability_score" = Some (VNum ps) /\ (0 <= ps <= 10)%Q
    /\ analysis !! "total_penalty" = Some (VNum tp) /\ (0 <= tp)%Q
    /\ analysis !! "blacklist_penalty" = Some (VNum bl) /\ (0 <= bl)%Q
    /\ analysis !! "confusing_penalty" = Some (VNum cf) /\ (0 <= cf)%Q
    /\ analysis !! "reuse_penalty" = Some (VNum ru) /\ (0 <= ru)%Q.
Proof.
  intros Hne.
  destruct (score_password_components rt self now password hint Hne)
    as (score & analysis & self' & pron & patterns & Hs & Epron & Epat
        & Hls & Hvs & Hus & Hps & _ & Htp & Hbl & Hcf & Hru & _).
  destruct (estimate_pronounceability_total password Hne) as (pron' & Epron' & Hp0 & Hp1).
  rewrite Epron in Epron'. apply Ok_inj in Epron'. subst pron'.
  exists score, analysis, self'. eexists _, _, _, _, _, _, _, _.
  split; [exact Hs |].
  split; [exact Hls |]. split; [apply length_score_le_50 |].
  split; [exact Hvs |]. split; [apply variety_score_bounds |].
  split; [exact Hus |]. split; [apply uniqueness_score_le_15 |].
  split; [exact Hps |]. split; [lra |].
  split; [exact Htp |].
  split; [exact (penalty_sum_nonneg _ (findings_positive password patterns Epat)) |].
  split; [exact Hbl |]. split; [apply blacklist_nonneg |].
  split; [exact Hcf |]. split; [apply confusing_nonneg |].
  split; [exact Hru |]. apply reuse_nonneg.
Qed.

Lemma breakdown_component_bounds_witness :
  "Tr@mpoline$92!" <> ""
  /\ exists score analysis self' ls vs us ps tp bl cf ru,
       score_password reference_runtime (__init__ "balanced" "en")
         "2025-08-16 10:00:00" "Tr@mpoline$92!" "" = Ok (score, analysis, self')
       /\ analysis !! "length_score" = Some (VNum ls) /\ (ls <= 50)%Q
       /\ analysis !! "variety_score" = Some (VNum vs) /\ (0 <= vs <= 25)%Q
       /\ analysis !! "uniqueness_score" = Some (VNum us) /\ (us <= 15)%Q
       /\ analysis !! "pronounceability_score" = Some (VNum ps) /\ (0 <= ps <= 10)%Q
       /\ analysis !! "total_penalty" = Some (VNum tp) /\ (0 <= tp)%Q
       /\ analysis !! "blacklist_penalty" = Some (VNum bl) /\ (0 <= bl)%Q
       /\ analysis !! "confusing_penalty" = Some (VNum cf) /\ (0 <= cf)%Q
       /\ analysis !! "reuse_penalty" = Some (VNum ru) /\ (0 <= ru)%Q.
Proof.
  assert (H : "Tr@mpoline$92!" <> "") by discriminate.
  split; [exact H |].
  exact (breakdown_component_bounds reference_runtime _ _ _ _ H).
Defined.

(** ** How the score moves *)

Lemma py_int_mono (x y : Q) : (x <= y)%Q -> (py_int x <= py_int y)%Z.
Proof.
  destruct x as [a b], y as [c d]. unfold Qle, py_int. cbn [Qnum Qden]. intros H.
  rewrite <- (Z.quot_mul_cancel_r a (Zpos b) (Zpos d)) by discriminate.
  rewrite <- (Z.quot_mul_cancel_r c (Zpos d) (Zpos b)) by discriminate.
  rewrite (Z.mul_comm (Zpos d) (Zpos b)).
  apply Z.quot_le_mono; lia.
Qed.

Lemma py_min_spec (a b : Q) :
  (py_min a b == b /\ b < a)%Q \/ (py_min a b == a /\ a <= b)%Q.
Proof.
  destruct (py_min_cases a b) as [[E H] | [E H]]; rewrite E; [left | right];
    split; [reflexivity | exact H | reflexivity | exact H].
Qed.

Lemma py_max_spec (a b : Q) :
  (py_max a b == b /\ a < b)%Q \/ (py_max a b == a /\ b <= a)%Q.
Proof.
  destruct (py_max_cases a b) as [[E H] | [E H]]; rewrite E; [left | right];
    split; [reflexivity | exact H | reflexivity | exact H].
Qed.

Lemma clamp_mono (x y : Q) :
  (x <= y)%Q -> (py_max 0 (py_min 100 x) <= py_max 0 (py_min 100 y))%Q.
Proof.
  intros Hxy.
  pose proof (py_min_spec 100 x) as Hx. pose proof (py_min_spec 100 y) as Hy.
  pose proof (py_max_spec 0 (py_min 100 x)) as Hx'.
  pose proof (py_max_spec 0 (py_min 100 y)) as Hy'.
  set (m1 := py_min 100 x) in *. set (m2 := py_min 100 y) in *.
  set (c1 := py_max 0 m1) in *. set (c2 := py_max 0 m2) in *.
  clearbody c1 c2. clearbody m1 m2.
  destruct Hx as [[? ?] | [? ?]], Hy as [[? ?] | [? ?]],
    Hx' as [[? ?] | [? ?]], Hy' as [[? ?] | [? ?]]; lra.
Qed.

Lemma zxcvbn_blend_mono rt password (f f' : Q) (a a' : gmap string Value) :
  (f <= f')%Q ->
  (fst (zxcvbn_blend rt password f a) <= fst (zxcvbn_blend rt password f' a'))%Q.
Proof.
  intros Hf. unfold zxcvbn_blend.
  destruct (zxcvbn rt) as [estimator |]; [| exact Hf].
  destruct (estimator password) as [r |]; [| exact Hf].
  cbn [fst]. rewrite <- Zle_Qle. apply py_int_mono.
  set (c := (inject_Z (zx_score r) / 4.0 * 100 * 0.3)%Q). clearbody c. lra.
Qed.

Lemma hint_relevance_cases (password hint : string) :
  hint_relevance_score password hint = 5%Q \/ hint_relevance_score password hint = 0%Q.
Proof. unfold hint_relevance_score. destruct (_ && _); auto. Qed.

(** A hint can only help: scored in the same state, a candidate gets with
    a hint at least the score it gets without one. *)
Theorem hint_never_lowers_score rt self now password hint :
  exists score0 analysis0 self0 score1 analysis1 self1,
    score_password rt self now password "" = Ok (score0, analysis0, self0)
    /\ score_password rt self now password hint = Ok (score1, analysis1, self1)
    /\ (score0 <= score1)%Z.
Proof.
  destruct (String.eqb_spec password "") as [-> | Hne].
  - rewrite !score_password_empty. eexists _, _, _, _, _, _.
    split; [reflexivity |]. split; [reflexivity | lia].
  - destruct (score_password_nonempty rt self now password "" Hne)
      as (pron & patterns & analysis & Epron & Epat & _ & _ & _ & Hs).
    destruct (score_password_nonempty rt self now password hint Hne)
      as (pron' & patterns' & analysis' & Epron' & Epat' & _ & _ & _ & Hs').
    rewrite Epron in Epron'. apply Ok_inj in Epron'. subst pron'.
    rewrite Epat in Epat'. apply Ok_inj in Epat'. subst patterns'.
    cbv zeta in Hs, Hs'. rewrite Hs, Hs'. eexists _, _, _, _, _, _.
    split; [reflexivity |]. split; [reflexivity |].
    apply py_int_mono, zxcvbn_blend_mono. unfold local_final_score. apply clamp_mono.
    assert (H0 : hint_relevance_score password "" = 0%Q) by reflexivity.
    rewrite H0.
    destruct (hint_relevance_cases password hint) as [-> | ->]; lra.
Qed.

(** Reuse can only hurt: a candidate scored twice in a row with the same
    hint gets the second time at most the score of the first. *)
Theorem rescoring_never_raises_score rt self now1 now2 password hint :
  exists score1 analysis1 self1 score2 analysis2 self2,
    score_password rt self now1 password hint = Ok (score1, analysis1, self1)
    /\ score_password rt self1 now2 password hint = Ok (score2, analysis2, self2)
    /\ (score2 <= score1)%Z.
Proof.
  destruct (String.eqb_spec password "") as [-> | Hne].
  - rewrite !score_password_empty. eexists _, _, _, _, _, _.
    split; [reflexivity |]. rewrite score_password_empty.
    split; [reflexivity | lia].
  - destruct (score_password_nonempty rt self now1 password hint Hne)
      as (pron & patterns & analysis & Epron & Epat & _ & _ & _ & Hs).
    cbv zeta in Hs.
    match type of Hs with
    | _ = Ok (_, _, ?s) => set (self1 := s) in *
    end.
    assert (Hr : retained 0 (Sha256.hexdigest password) (password_history self1)).
    { subst self1. rewrite pushed_add_to_history. apply retained_pushed_same. }
    destruct (score_password_nonempty rt self1 now2 password hint Hne)
      as (pron' & patterns' & analysis' & Epron' & Epat' & _ & _ & _ & Hs').
    rewrite Epron in Epron'. apply Ok_inj in Epron'. subst pron'.
    rewrite Epat in Epat'. apply Ok_inj in Epat'. subst patterns'.
    cbv zeta in Hs'. rewrite (retained_reuse _ _ _ Hr) in Hs'. cbn [snd] in Hs'.
    eexists _, _, self1, _, _, _.
    split; [exact Hs |]. split; [exact Hs' |].
    apply py_int_mono, zxcvbn_blend_mono. unfold local_final_score. apply clamp_mono.
    destruct (check_password_reuse_cases self password) as [-> | ->]; cbn [snd]; lra.
Qed.

(** ** The ledger under scoring *)

Lemma pushed_bounded (history : list HistoryEntry) (entry : HistoryEntry) :
  (List.length history <= 50)%nat -> (List.length (pushed history entry) <= 50)%nat.
Proof.
  intros H. unfold pushed. cbv zeta.
  match goal with
  | |- context [(50 <? ?n)%nat] => destruct (Nat.ltb_spec 50 n) as [Hlt | Hle]
  end; [| exact Hle].
  rewrite length_tl, length_app. cbn. lia.
Qed.

Lemma score_all_bounded rt calls : forall self,
  (List.length (password_history self) <= 50)%nat ->
  exists self', score_all rt self calls = Ok self'
                /\ (List.length (password_history self') <= 50)%nat.
Proof.
  induction calls as [| [[now password] hint] calls IH]; intros self H.
  - exists self. split; [reflexivity | exact H].
  - destruct (score_password_history rt self now password hint)
      as (score & analysis & self1 & final & Hs & _ & Hh).
    assert (H1 : (List.length (password_history self1) <= 50)%nat).
    { rewrite Hh. destruct (String.eqb password ""); [exact H |]. apply pushed_bounded, H. }
    destruct (IH self1 H1) as (self' & Hall & Hb).
    exists self'. split; [| exact Hb].
    cbn [score_all]. rewrite Hs, bind_Ok. exact Hall.
Qed.

(** Whatever ASCII candidates are scored, and however often, every call
    returns and the ledger of an instance never holds more than 50
    entries. *)
Theorem scoring_keeps_ledger_bounded rt mode lang calls :
  Forall (fun '(_, password, _) => PyStr.isascii password = true) calls ->
  exists self', score_all rt (__init__ mode lang) calls = Ok self'
                /\ (List.length (password_history self') <= 50)%nat.
Proof. intros _. apply score_all_bounded. cbn. lia. Qed.

Lemma scoring_keeps_ledger_bounded_witness :
  Forall (fun '(_, password, _) => PyStr.isascii password = true)
    [("2025-08-16 10:00:00", "sunset2024!", "sunset"); ("2025-08-16 10:00:01", "", "")]
  /\ exists self',
       score_all reference_runtime (__init__ "balanced" "en")
         [("2025-08-16 10:00:00", "sunset2024!", "sunset"); ("2025-08-16 10:00:01", "", "")]
       = Ok self'
       /\ (List.length (password_history self') <= 50)%nat.
Proof.
  assert (H : Forall (fun '(_, password, _) => PyStr.isascii password = true)
                [("2025-08-16 10:00:00", "sunset2024!", "sunset");
                 ("2025-08-16 10:00:01", "", "")])
    by (repeat constructor).
  split; [exact H |].
  exact (scoring_keeps_ledger_bounded reference_runtime "balanced" "en" _ H).
Defined.

(** ** Generated passwords *)

Lemma length_append (s t : string) :
  String.length (s ++ t) = (String.length s + String.length t)%nat.
Proof. induction s as [| c s IH]; [reflexivity |]. simpl. rewrite IH. reflexivity. Qed.

Lemma length_take (n : nat) : forall s : string,
  String.length (PyStr.take n s) = Nat.min n (String.length s).
Proof.
  unfold PyStr.take. induction n as [| n IH]; intros s.
  - destruct s; reflexivity.
  - destruct s as [| c s]; [reflexivity |]. cbn. rewrite IH. reflexivity.
Qed.

Lemma any_append (p : ascii -> bool) (s t : string) :
  PyStr.any p (s ++ t) = PyStr.any p s || PyStr.any p t.
Proof.
  induction s as [| c s IH]; [reflexivity |].
  simpl. rewrite IH. apply orb_assoc.
Qed.

Lemma suffix_short (tape : list nat) :
  (String.length (fst (choice ["Pro"; "Max"; "Plus"] tape)) <= 4)%nat.
Proof.
  pose proof (choice_In ["Pro"; "Max"; "Plus"] tape ltac:(discriminate)) as H.
  destruct H as [<- | [<- | [<- | []]]]; cbn; lia.
Qed.

(** Whatever the hint, the complexity and the draws, for a requested length
    that is not negative [generate_memorable_password] returns at most 3
    characters more than that length. *)
Theorem generate_memorable_length_bound (tape : list nat) (hint : string) (length : Z)
    (complexity : string) :
  (0 <= length)%Z ->
  (String.length (fst (generate_memorable_password tape hint (Z.to_nat length) complexity))
   <= Z.to_nat length + 3)%nat.
Proof.
  intros _. generalize (Z.to_nat length). clear length. intros length.
  unfold generate_memorable_password. cbv zeta.
  destruct (choice ["Secure"; "Strong"; "Safe"] tape) as [word t1].
  match goal with
  | |- context [if numbers ?cfg then _ else _] => set (config := cfg)
  end.
  match goal with
  | |- context [let '(year, tape) := ?e in _] => destruct e as [year t2]
  end.
  destruct (choice (symbols config) t2) as [symbol t3].
  match goal with
  | |- context [(String.length ?p <? length)%nat] => set (password := p)
  end.
  destruct (Nat.ltb_spec (String.length password) length) as [Hlt | Hge].
  - pose proof (suffix_short t3) as Hs.
    destruct (choice ["Pro"; "Max"; "Plus"] t3) as [suffix t4].
    cbn [fst] in *. rewrite length_append. lia.
  - destruct (Nat.ltb_spec length (String.length password)) as [Hgt | Hle].
    + cbn [fst]. rewrite length_take. lia.
    + cbn [fst]. lia.
Qed.

Lemma generate_memorable_length_bound_witness :
  (0 <= 16)%Z
  /\ (String.length
        (fst (generate_memorable_password [2; 0; 0; 0]%nat "sunset" (Z.to_nat 16) "balanced"))
      <= Z.to_nat 16 + 3)%nat.
Proof.
  assert (H : (0 <= 16)%Z) by lia.
  split; [exact H |].
  exact (generate_memorable_length_bound [2; 0; 0; 0]%nat "sunset" 16 "balanced" H).
Defined.

(** ** Enhancing a password *)

Lemma startswith_append (s t : string) : PyStr.startswith s (s ++ t) = true.
Proof.
  induction s as [| c s IH]; [destruct t; reflexivity |].
  simpl. rewrite Ascii.eqb_refl, IH. reflexivity.
Qed.

Lemma contains_startswith (sub s : string) :
  PyStr.startswith sub s = true -> PyStr.contains sub s = true.
Proof. intros H. destruct s; simpl; rewrite H; reflexivity. Qed.

Lemma contains_skip (sub : string) (c : ascii) (s : string) :
  PyStr.contains sub s = true -> PyStr.contains sub (String c s) = true.
Proof. intros H. simpl. rewrite H. apply orb_true_r. Qed.

Lemma contains_prepend (sub p s : string) :
  PyStr.contains sub s = true -> PyStr.contains sub (p ++ s) = true.
Proof.
  intros H. induction p as [| c p IH]; [exact H |].
  change (String c p ++ s) with (String c (p ++ s)). apply contains_skip, IH.
Qed.

Lemma contains_append (sub s t : string) :
  PyStr.contains sub s = true -> PyStr.contains sub (s ++ t) = true.
Proof.
  revert sub. induction s as [| c s IH]; intros sub H.
  - simpl in H. rewrite orb_false_r in H. destruct sub; [| discriminate].
    destruct t; reflexivity.
  - simpl in H. apply orb_prop in H. destruct H as [H | H].
    + apply contains_startswith.
      clear IH. revert H. generalize (String c s). intros u. revert u.
      induction sub as [| a sub IHs]; intros u H; [reflexivity |].
      destruct u as [| b u]; [discriminate |].
      simpl in H |- *. apply andb_prop in H. destruct H as [Hab Hu].
      rewrite Hab. simpl. apply IHs, Hu.
    + change (String c s ++ t) with (String c (s ++ t)). apply contains_skip, IH, H.
Qed.

Lemma of_nat_two_digits (n : nat) :
  (10 <= n <= 99)%nat -> PyStr.any PyStr.isdigit (PyStr.of_nat n) = true.
Proof.
  intros H.
  assert (Hall : forallb (fun n => PyStr.any PyStr.isdigit (PyStr.of_nat n)) (seq 10 90) = true)
    by (vm_compute; reflexivity).
  rewrite List.forallb_forall in Hall. apply Hall. apply List.in_seq. lia.
Qed.

Lemma contains_refl (s : string) : PyStr.contains s s = true.
Proof.
  apply contains_startswith.
  induction s as [| c s IH]; [reflexivity |].
  simpl. rewrite Ascii.eqb_refl, IH. reflexivity.
Qed.

Lemma outcome_bind_returned {A B : Type} (a : A) (f : A -> outcome B) :
  (Returned a ≫= f) = f a.
Proof. reflexivity. Qed.

(** What [_enhance_existing_password] returns on a non-empty password. *)
Lemma enhance_returns (tape : list nat) (first : ascii) (rest : string) :
  exists enhanced tape' first',
    _enhance_existing_password tape (String first rest) = Returned (enhanced, tape')
    /\ (first' = first \/ first' = PyStr.upper_char first)
    /\ PyStr.contains (String first' rest) enhanced = true
    /\ PyStr.any PyStr.isdigit enhanced = true
    /\ PyStr.any is_shift_symbol enhanced = true.
Proof.
  unfold _enhance_existing_password. cbv beta iota zeta.
  assert (H1 : exists first',
             (first' = first \/ first' = PyStr.upper_char first)
             /\ (if negb (PyStr.any PyStr.isupper (String first rest))
                 then mret (if PyStr.islower first
                            then String (PyStr.upper_char first) rest
                            else String first rest)
                 else mret (String first rest))
                = Returned (String first' rest)).
  { destruct (negb _); [destruct (PyStr.islower first) |]; eexists; (split; [| reflexivity]); auto. }
  destruct H1 as (first' & Hfirst & ->). rewrite outcome_bind_returned.
  remember (String first' rest) as e1 eqn:He1.
  assert (Hc : PyStr.contains e1 e1 = true) by apply contains_refl.
  (* the symbol *)
  assert (H2 : exists e2 t2,
             (if negb (PyStr.any is_shift_symbol e1)
              then let '(symbol, tape) := choice ["!"; "#"; "$"] tape in
                   (e1 ++ symbol, tape)
              else (e1, tape)) = (e2, t2)
             /\ PyStr.contains e1 e2 = true
             /\ PyStr.any is_shift_symbol e2 = true).
  { destruct (PyStr.any is_shift_symbol e1) eqn:Es; cbn [negb].
    - eexists _, _. split; [reflexivity |]. split; assumption.
    - pose proof (choice_In ["!"; "#"; "$"] tape ltac:(discriminate)) as Hin.
      destruct (choice ["!"; "#"; "$"] tape) as [symbol t2]. cbn [fst] in Hin.
      eexists _, _. split; [reflexivity |]. split; [apply contains_append, Hc |].
      rewrite any_append.
      destruct Hin as [<- | [<- | [<- | []]]]; rewrite orb_true_r; reflexivity. }
  destruct H2 as (e2 & t2 & -> & Hc2 & Hs2).
  (* the digits *)
  assert (H3 : exists e3 t3,
             (if negb (PyStr.any PyStr.isdigit e2)
              then let '(n, tape) := randint 10 99 t2 in (e2 ++ PyStr.of_nat n, tape)
              else (e2, t2)) = (e3, t3)
             /\ PyStr.contains e1 e3 = true
             /\ PyStr.any is_shift_symbol e3 = true
             /\ PyStr.any PyStr.isdigit e3 = true).
  { destruct (PyStr.any PyStr.isdigit e2) eqn:Ed; cbn [negb].
    - eexists _, _. split; [reflexivity |]. repeat split; assumption.
    - pose proof (randint_range 10 99 t2 ltac:(lia)) as Hn.
      destruct (randint 10 99 t2) as [n t3]. cbn [fst] in Hn.
      eexists _, _. split; [reflexivity |].
      split; [apply contains_append, Hc2 |].
      split; rewrite any_append; [rewrite Hs2; reflexivity |].
      rewrite (of_nat_two_digits n Hn). apply orb_true_r. }
  destruct H3 as (e3 & t3 & -> & Hc3 & Hs3 & Hd3). subst e1.
  destruct (String.length e3 <? 10)%nat.
  - destruct (choice ["Secure"; "Strong"; "Safe"] t3) as [addition t4].
    exists (addition ++ e3), t4, first'. split; [reflexivity |]. split; [exact Hfirst |].
    split; [apply contains_prepend, Hc3 |].
    rewrite !any_append, Hd3, Hs3, !orb_true_r. split; reflexivity.
  - exists e3, t3, first'. split; [reflexivity |]. repeat split; assumption.
Qed.

(** On a non-empty ASCII password [_enhance_existing_password] returns a
    string that holds a digit and a character of ["!@#$%^&*()"], and holds
    the password itself, its first letter possibly upper-cased. *)
Theorem enhance_keeps_the_password (tape : list nat) (password : string) :
  password <> "" ->
  PyStr.isascii password = true ->
  exists enhanced tape' first first' rest,
    _enhance_existing_password tape password = Returned (enhanced, tape')
    /\ password = String first rest
    /\ (first' = first \/ first' = PyStr.upper_char first)
    /\ PyStr.contains (String first' rest) enhanced = true
    /\ PyStr.any PyStr.isdigit enhanced = true
    /\ PyStr.any is_shift_symbol enhanced = true.
Proof.
  intros Hne _. destruct password as [| first rest]; [contradiction |].
  destruct (enhance_returns tape first rest)
    as (enhanced & tape' & first' & H & Hf & Hc & Hd & Hs).
  exists enhanced, tape', first, first', rest. repeat split; assumption.
Qed.

Lemma enhance_keeps_the_password_witness :
  "sunset" <> ""
  /\ PyStr.isascii "sunset" = true
  /\ exists enhanced tape' first first' rest,
       _enhance_existing_password [1; 5; 2]%nat "sunset" = Returned (enhanced, tape')
       /\ "sunset" = String first rest
       /\ (first' = first \/ first' = PyStr.upper_char first)
       /\ PyStr.contains (String first' rest) enhanced = true
       /\ PyStr.any PyStr.isdigit enhanced = true
       /\ PyStr.any is_shift_symbol enhanced = true.
Proof.
  assert (H : "sunset" <> "") by discriminate.
  assert (Ha : PyStr.isascii "sunset" = true) by reflexivity.
  split; [exact H |]. split; [exact Ha |].
  exact (enhance_keeps_the_password [1; 5; 2]%nat "sunset" H Ha).
Defined.

(** [_enhance_existing_password] raises exactly on the empty password, and
    then it is the IndexError of [enhanced[0]]. *)
Theorem enhance_raises_only_on_empty (tape : list nat) (password : string) :
  (_enhance_existing_password tape password = Failed IndexError <-> password = "")
  /\ forall e, _enhance_existing_password tape password = Failed e -> e = IndexError.
Proof.
  destruct password as [| first rest].
  - split; [split; reflexivity |]. intros e H. cbn in H. congruence.
  - destruct (enhance_returns tape first rest) as (enhanced & tape' & first' & H & _).
    rewrite H. split; [split; discriminate | discriminate].
Qed.

(** ** Pattern-based passwords *)

Lemma pattern_based_candidate (tape : list nat) :
  In (fst (_generate_pattern_based_password tape)) pattern_based_candidates.
Proof.
  unfold _generate_pattern_based_password. cbv zeta.
  pose proof (choice_In
    ["Sunset"; "Ocean"; "Mountain"; "River"; "Forest"; "Garden"; "Bridge"] tape
    ltac:(discriminate)) as H1.
  destruct (choice _ tape) as [word1 t1]. cbn [fst] in H1.
  pose proof (choice_In ["Run"; "Jump"; "Fly"; "Code"; "Build"] t1 ltac:(discriminate)) as H2.
  destruct (choice _ t1) as [word2 t2]. cbn [fst] in H2.
  pose proof (choice_In ["#"; "&"; "@"] t2 ltac:(discriminate)) as H3.
  destruct (choice _ t2) as [symbol t3]. cbn [fst] in H3.
  pose proof (randint_range 2020 2025 t3 ltac:(lia)) as H4.
  destruct (randint 2020 2025 t3) as [year t4]. cbn [fst] in H4 |- *.
  unfold pattern_based_candidates.
  apply in_flat_map. exists word1. split; [exact H1 |].
  apply in_flat_map. exists word2. split; [exact H2 |].
  apply in_flat_map. exists symbol. split; [exact H3 |].
  apply in_map_iff. exists year. split; [reflexivity |].
  apply in_seq. lia.
Qed.

Lemma pattern_based_candidates_ok :
  forallb pattern_based_ok pattern_based_candidates = true.
Proof. vm_compute. reflexivity. Qed.

(** Whatever the random draws, the password of
    [_generate_pattern_based_password] has a lower-case letter, an upper-case
    letter, a digit and a symbol, is 15 to 20 characters long, and
    [detect_patterns] reports a [year_pattern] finding on it. *)
Theorem pattern_based_password_has_year_finding (tape : list nat) :
  variety_count (fst (_generate_pattern_based_password tape)) = 4%nat
  /\ (15 <= String.length (fst (_generate_pattern_based_password tape)) <= 20)%nat
  /\ exists patterns,
       detect_patterns (fst (_generate_pattern_based_password tape)) = Ok patterns
       /\ has_type "year_pattern" patterns = true.
Proof.
  pose proof (pattern_based_candidate tape) as Hin.
  pose proof pattern_based_candidates_ok as Hall.
  rewrite forallb_forall in Hall. apply Hall in Hin. clear Hall.
  unfold pattern_based_ok in Hin.
  apply andb_prop in Hin as [Hin Hyear].
  apply andb_prop in Hin as [Hin Hmax].
  apply andb_prop in Hin as [Hvar Hmin].
  apply Nat.eqb_eq in Hvar. apply Nat.leb_le in Hmin. apply Nat.leb_le in Hmax.
  split; [exact Hvar |]. split; [lia |].
  destruct (detect_patterns _) as [patterns | e]; [| discriminate].
  exists patterns. split; [reflexivity | exact Hyear].
Qed.

(** ** Suggestions *)

Lemma slice_to_length {A : Type} (l : list A) (count : Z) :
  (0 <= count)%Z -> List.length (slice_to l count) = Nat.min (Z.to_nat count) (List.length l).
Proof.
  intros Hc. unfold slice_to.
  destruct (Z.leb_spec 0 count) as [_ | Hlt]; [| lia].
  apply length_firstn.
Qed.

Lemma slice_to_head {A : Type} (x : A) (l : list A) (count : Z) :
  (1 <= count)%Z -> exists rest, slice_to (x :: l) count = x :: rest.
Proof.
  intros Hc. unfold slice_to.
  destruct (Z.leb_spec 0 count) as [_ | Hlt]; [| lia].
  destruct (Z.to_nat count) as [| n] eqn:En; [lia |].
  eexists. reflexivity.
Qed.

(** On an ASCII password and with a count that is not negative,
    [suggest_alternatives] does not raise: it returns as many suggestions as
    the count allows of one for a password of four characters or more, one
    for a hint, and the pattern-based one; the engine after the call is the
    one [score_password] leaves.  The suggestion made from the password,
    when asked for, is the first and holds a digit and a character of
    ["!@#$%^&*()"]. *)
Theorem suggest_alternatives_count (rt : Runtime) (self : PasswordIntelligence)
    (now : string) (tape : list nat) (password hint : string) (count : Z) :
  PyStr.isascii password = true ->
  (0 <= count)%Z ->
  exists suggestions self' tape' score analysis,
    suggest_alternatives rt self now tape password hint count
    = Returned (suggestions, self', tape')
    /\ score_password rt self now password hint = Ok (score, analysis, self')
    /\ List.length suggestions
       = Nat.min (Z.to_nat count)
           ((if (4 <=? PyStr.len password)%nat then 1 else 0)
            + (if String.eqb hint "" then 0 else 1) + 1)
    /\ ((4 <= PyStr.len password)%nat -> (1 <= count)%Z ->
        exists first rest,
          suggestions = first :: rest
          /\ PyStr.any PyStr.isdigit (sg_password first) = true
          /\ PyStr.any is_shift_symbol (sg_password first) = true).
Proof.
  intros _ Hc.
  destruct (score_password_history rt self now password hint)
    as (score & analysis & self' & final_score & Hs & _).
  unfold suggest_alternatives. rewrite Hs. cbn [of_result].
  rewrite outcome_bind_returned. cbv beta iota zeta.
  destruct (Nat.leb_spec 4 (PyStr.len password)) as [H4 | H4].
  - destruct password as [| c rest]; [cbn in H4; lia |].
    destruct (enhance_returns tape c rest)
      as (enhanced & t1 & first' & He & _ & _ & Hd & Hsym).
    rewrite He, !outcome_bind_returned. cbv beta iota zeta.
    destruct (String.eqb hint ""); cbn [negb].
    + destruct (_generate_pattern_based_password t1) as [pattern_based t3].
      eexists _, self', _, score, analysis. split; [reflexivity |].
      split; [reflexivity |].
      split; [rewrite slice_to_length by exact Hc; reflexivity |].
      intros _ H1. cbn [app].
      destruct (slice_to_head
                  {| sg_password := enhanced;
                     sg_explanation := "Enhanced your password with better security";
                     sg_mnemonic := "Based on your original with added strength" |}
                  [ {| sg_password := pattern_based;
                       sg_explanation := "Human-friendly pattern, easy to remember";
                       sg_mnemonic := "Word-Word#Year! structure" |} ] count H1)
        as (tail & Ht).
      eexists _, tail. split; [exact Ht |]. split; assumption.
    + destruct (generate_memorable_password t1 hint 14 "balanced") as [memorable t2].
      destruct (_generate_pattern_based_password t2) as [pattern_based t3].
      eexists _, self', _, score, analysis. split; [reflexivity |].
      split; [reflexivity |].
      split; [rewrite slice_to_length by exact Hc; reflexivity |].
      intros _ H1. cbn [app].
      match goal with
      | |- context [slice_to (?x :: ?l) count] =>
          destruct (slice_to_head x l count H1) as (tail & Ht)
      end.
      eexists _, tail. split; [exact Ht |]. split; assumption.
  - rewrite !outcome_bind_returned. cbv beta iota zeta.
    destruct (String.eqb hint ""); cbn [negb].
    + destruct (_generate_pattern_based_password tape) as [pattern_based t3].
      eexists _, self', _, score, analysis. split; [reflexivity |].
      split; [reflexivity |].
      split; [rewrite slice_to_length by exact Hc; reflexivity |].
      intros H. lia.
    + destruct (generate_memorable_password tape hint 14 "balanced") as [memorable t2].
      destruct (_generate_pattern_based_password t2) as [pattern_based t3].
      eexists _, self', _, score, analysis. split; [reflexivity |].
      split; [reflexivity |].
      split; [rewrite slice_to_length by exact Hc; reflexivity |].
      intros H. lia.
Qed.

Lemma suggest_alternatives_count_witness :
  PyStr.isascii "sunset" = true
  /\ (0 <= 3)%Z
  /\ exists suggestions self' tape' score analysis,
       suggest_alternatives reference_runtime (__init__ "balanced" "en") "2024-01-01T00:00:00"
         [1; 5; 2; 0; 1; 2; 3; 3; 1; 2; 4]%nat "sunset" "Sunset" 3
       = Returned (suggestions, self', tape')
       /\ score_password reference_runtime (__init__ "balanced" "en") "2024-01-01T00:00:00"
            "sunset" "Sunset"
          = Ok (score, analysis, self')
       /\ List.length suggestions
          = Nat.min (Z.to_nat 3)
              ((if (4 <=? PyStr.len "sunset")%nat then 1 else 0)
               + (if String.eqb "Sunset" "" then 0 else 1) + 1)
       /\ ((4 <= PyStr.len "sunset")%nat -> (1 <= 3)%Z ->
           exists first rest,
             suggestions = first :: rest
             /\ PyStr.any PyStr.isdigit (sg_password first) = true
             /\ PyStr.any is_shift_symbol (sg_password first) = true).
Proof.
  assert (Ha : PyStr.isascii "sunset" = true) by reflexivity.
  assert (H : (0 <= 3)%Z) by lia.
  split; [exact Ha |]. split; [exact H |].
  exact (suggest_alternatives_count reference_runtime (__init__ "balanced" "en")
           "2024-01-01T00:00:00" [1; 5; 2; 0; 1; 2; 3; 3; 1; 2; 4]%nat "sunset" "Sunset" 3
           Ha H).
Defined.

(** * Examples *)

Example sha256_empty :
  Sha256.hexdigest "" = "e3b0c44298fc1c149afbf4c8996fb92427ae41e4649b934ca495991b7852b855".
Proof. vm_compute. reflexivity. Qed.

Example sha256_abc :
  Sha256.hexdigest "abc" = "ba7816bf8f01cfea414140de5dae2223b00361a396177a9cb410ff61f20015ad".
Proof. vm_compute. reflexivity. Qed.

Example sha256_two_blocks :
  Sha256.hexdigest "aaaaaaaaaaaaaaaaaaaaaaaaaaaaaaaaaaaaaaaaaaaaaaaaaaaaaaaa"
  = "b35439a4ac6f0948b6d6f9e3c6af0f5f590ce20f1bde7090ef7970686ec6738a".
Proof. vm_compute. reflexivity. Qed.

Example edit_distance_kitten : _simple_edit_distance "kitten" "sitting" = 3%nat.
Proof. reflexivity. Qed.

Example edit_distance_early_exit : _simple_edit_distance "abc" "abcdefg" = 3%nat.
Proof. reflexivity. Qed.

Example exact_match_strength : check_common_passwords "PASSWORD" = (true, 0.9%Q).
Proof. vm_compute. reflexivity. Qed.

Example no_match_strength : check_common_passwords "Tr@mpoline$92!" = (false, 0.0%Q).
Proof. vm_compute. reflexivity. Qed.

Example title_restarts_after_digit : PyStr.title "abc1def gHI" = "Abc1Def Ghi".
Proof. reflexivity. Qed.

Example dollar_before_final_newline :
  PyStr.rstrip_dollar PyStr.isdigit ("ab12" ++ NL) = "ab" ++ NL.
Proof. reflexivity. Qed.

Example score_aaaaaaaa :
  fst <$> (fst <$> score_password reference_runtime (__init__ "balanced" "en")
                      "2025-08-16 10:00:00" "aaaaaaaa" "")
  = Ok 21%Z.
Proof. vm_compute. reflexivity. Qed.

Example score_trampoline :
  fst <$> (fst <$> score_password reference_runtime (__init__ "balanced" "en")
                      "2025-08-16 10:00:00" "Tr@mpoline$92!" "")
  = Ok 85%Z.
Proof. vm_compute. reflexivity. Qed.

Example second_scoring_reports_reuse :
  ('(_, _, self) ← score_password reference_runtime (__init__ "balanced" "en")
                     "2025-08-16 10:00:00" "Tr@mpoline$92!" "";
   '(_, analysis, _) ← score_password reference_runtime self
                         "2025-08-16 10:00:01" "Tr@mpoline$92!" "";
   mret (analysis !! "reuse_penalty"))
  = Ok (Some (VNum (0.5 * 10))).
Proof. vm_compute. reflexivity. Qed.

Example memorable_truncated :
  generate_memorable_password [1; 3; 2; 0]%nat "sunset" 16 "balanced"
  = ("Suns3tStrong2023", [0%nat]).
Proof. vm_compute. reflexivity. Qed.
